(** * communitydocs-rag: the structured-generation retry loop

    A shallow embedding of [communitydocs_rag/llm/generate.py] and
    [communitydocs_rag/llm/schema.py], with the two library calls the loop
    relies on ([json.loads] and pydantic's [model_validate]) modelled next to
    them, and the [FakeClient] of the test-suite as a concrete generator.

    Conventions.
    - A Python [str] is a Rocq [string] holding its UTF-8 bytes; [py_len]
      counts code points, which is what Python's [len] and pydantic's length
      constraints count.
    - A Python [float] is a binary64 number: the kernel's primitive [float].
    - A Python [int] is a [Z].
    - An exception of the generator is carried as its [str(e)], which is
      all the code reads of it.  The exceptions of the libraries are values
      of [PyException]; the text [str(e)] gives for one of them is the
      library's business and is taken from the [Interpreter]. *)

From Stdlib Require Import ZArith List String Ascii Bool Lia Floats DecimalString.
Import ListNotations.

Set Warnings "-register-all".

Local Open Scope string_scope.
Local Open Scope Z_scope.

(* ------------------------------------------------------------------ *)
(** ** Python strings *)

Module PyStr.

Definition chars (s : string) : list ascii := list_ascii_of_string s.
Definition of_chars (l : list ascii) : string := string_of_list_ascii l.

(** A UTF-8 continuation byte is [10xxxxxx]. *)
Definition is_continuation (c : ascii) : bool :=
  let n := N_of_ascii c in (128 <=? n)%N && (n <? 192)%N.

(** [len(s)]: the number of code points. *)
Fixpoint py_len (s : string) : Z :=
  match s with
  | EmptyString => 0
  | String c r => (if is_continuation c then 0 else 1) + py_len r
  end.

(** [str(n)] for an [int]. *)
Definition str_of_int (n : Z) : string := NilZero.string_of_int (Z.to_int n).

(** [x or y] on strings: the empty string is falsy. *)
Definition str_or (x y : string) : string :=
  match x with EmptyString => y | _ => x end.

(** [x or y] for an [Optional[str]]: [None] is falsy too. *)
Definition opt_or (x : option string) (y : string) : string :=
  match x with Some s => str_or s y | None => y end.

(** [range(lo, hi)] *)
Definition py_range (lo hi : Z) : list Z :=
  map (fun i => lo + Z.of_nat i) (seq 0 (Z.to_nat (hi - lo))).

(** [l[i]]: a negative index counts from the end; [None] stands for
    [IndexError]. *)
Definition py_index {A : Type} (l : list A) (i : Z) : option A :=
  let n := Z.of_nat (List.length l) in
  if (0 <=? i) && (i <? n) then nth_error l (Z.to_nat i)
  else if (- n <=? i) && (i <? 0) then nth_error l (Z.to_nat (n + i))
  else None.

(** [chr(n)] as UTF-8 (a lone surrogate is written with the same
    three-byte pattern). *)
Definition byte (n : Z) : ascii := ascii_of_N (Z.to_N n).

Definition chr (n : Z) : list ascii :=
  if n <? 128 then [byte n]
  else if n <? 2048 then
    [byte (Z.lor 192 (Z.shiftr n 6)); byte (Z.lor 128 (Z.land n 63))]
  else if n <? 65536 then
    [byte (Z.lor 224 (Z.shiftr n 12));
     byte (Z.lor 128 (Z.land (Z.shiftr n 6) 63));
     byte (Z.lor 128 (Z.land n 63))]
  else
    [byte (Z.lor 240 (Z.shiftr n 18));
     byte (Z.lor 128 (Z.land (Z.shiftr n 12) 63));
     byte (Z.lor 128 (Z.land (Z.shiftr n 6) 63));
     byte (Z.lor 128 (Z.land n 63))].

(** [s.startswith(p)], returning what follows the prefix. *)
Fixpoint strip_prefix (p s : list ascii) : option (list ascii) :=
  match p, s with
  | [], _ => Some s
  | a :: p', b :: s' => if Ascii.eqb a b then strip_prefix p' s' else None
  | _ :: _, [] => None
  end.

(** Whether a [str] holds a surrogate code point (U+D800 to U+DFFF), which
    UTF-8 proper cannot encode: in the three-byte pattern its first byte is
    [0xED] and its second lies between [0xA0] and [0xBF]. *)
Fixpoint has_surrogate (s : list ascii) : bool :=
  match s with
  | a :: (b :: _) as r =>
      (N_of_ascii a =? 237)%N && (160 <=? N_of_ascii b)%N && (N_of_ascii b <=? 191)%N
      || has_surrogate r
  | _ => false
  end.

End PyStr.
Export PyStr.

(* ------------------------------------------------------------------ *)
(** ** Python floats: decimal text to binary64 *)

Module PyFloat.

(** The binary64 value nearest to [(-1)^neg * m * 10^e], ties to even:
    what [float("...")] computes from a decimal literal.  For a negative
    exponent the quotient is taken with 64 spare bits and a sticky bit, so
    the single rounding of [binary_normalize] is the correct one. *)
Definition sf_of_decimal (neg : bool) (m e : Z) : spec_float :=
  let sg (x : Z) := if neg then - x else x in
  if m =? 0 then S754_zero neg
  else if 0 <=? e then binary_normalize prec emax (sg (m * 10 ^ e)) 0 neg
  else
    let d := 10 ^ (- e) in
    let k := Z.log2 d + 64 in
    let n := m * 2 ^ k in
    let q := n / d in
    let sticky := if n mod d =? 0 then 0 else 1 in
    binary_normalize prec emax (sg (2 * q + sticky)) (- k - 1) neg.

Definition float_of_decimal (neg : bool) (m e : Z) : float :=
  SF2Prim (sf_of_decimal neg m e).

(** [float(n)] for an [int]: [None] stands for [OverflowError]. *)
Definition float_of_int (n : Z) : option float :=
  match binary_normalize prec emax n 0 false with
  | S754_infinity _ => None
  | sf => Some (SF2Prim sf)
  end.

Definition nan : float := PrimFloat.nan.
Definition inf (neg : bool) : float :=
  if neg then PrimFloat.neg_infinity else PrimFloat.infinity.

End PyFloat.
Export PyFloat.

(* ------------------------------------------------------------------ *)
(** ** The interpreter and the exceptions of the libraries *)

Module PyExc.

(** [json.JSONDecodeError]: [at_] is the part of the document from the
    position of the error on. *)
Record JSONDecodeError : Type := mkDecodeError
  { msg : string; doc : string; at_ : list ascii }.

(** One line of a [pydantic.ValidationError]: the error type, the place
    and the message. *)
Record ErrorDetails : Type := mkError
  { type_ : string; loc : list string; err_msg : string }.

(** [pydantic.ValidationError]: the model's name and the errors found. *)
Record ValidationError : Type := mkValidationError
  { ve_title : string; errors : list ErrorDetails }.

(** The exceptions the libraries raise in what follows:
    - [json.JSONDecodeError], from [json.loads];
    - [pydantic.ValidationError], from [model_validate];
    - the [ValueError] of [int(text)] for a text of more digits than the
      interpreter converts, which [json.loads] raises for such a literal;
    - the [ValueError] of [str(n)] for an [int] of more digits than that;
    - the [RecursionError] of [json.loads] on a document nested deeper than
      the interpreter has room for, raised on entering an object or an
      array;
    - any other exception, given by the name of its class. *)
Inductive PyException : Type :=
| E_JSONDecodeError (e : JSONDecodeError)
| E_ValidationError (e : ValidationError)
| E_ValueError_int (digits : Z)
| E_ValueError_str
| E_RecursionError (in_object : bool)
| E_Exception (class_name : string).

(** What the code's behaviour depends on in the interpreter it runs in:
    - [int_max_str_digits]: [sys.get_int_max_str_digits()], the most digits
      [int(text)] and [str(n)] convert, [0] for no limit (4300 unless set
      otherwise);
    - [recursion_room]: how many objects and arrays inside one another
      [json.loads] can enter, where [generate_structured] calls it, before
      the recursion limit is reached;
    - [exc_str]: [str(e)] for an exception of the libraries. *)
Class Interpreter : Type := mkInterpreter
  { int_max_str_digits : Z;
    recursion_room : nat;
    exc_str : PyException -> string }.

(** How many digits [n] has in decimal. *)
Definition decimal_digits (n : Z) : Z :=
  Z.of_nat (String.length (str_of_int (Z.abs n))).

Definition over_limit {py : Interpreter} (digits : Z) : bool :=
  (0 <? int_max_str_digits) && (int_max_str_digits <? digits).

(** [str(n)] for an [int], which raises [ValueError] over the limit. *)
Definition py_str {py : Interpreter} (n : Z) : PyException + string :=
  if over_limit (decimal_digits n) then inl E_ValueError_str
  else inr (str_of_int n).

End PyExc.
Export PyExc.

(* ------------------------------------------------------------------ *)
(** ** JSON values and [json.loads] *)

Module Json.

(** What [json.loads] returns: [None], [bool], [int], [float], [str],
    [list] and [dict].  A [dict] keeps its keys in insertion order, each
    key once. *)
Inductive Json : Type :=
| JNone
| JBool (b : bool)
| JInt (n : Z)
| JFloat (f : float)
| JStr (s : string)
| JList (l : list Json)
| JDict (d : list (string * Json)).

Definition PyDict : Type := list (string * Json).

(** [d.get(k)] *)
Fixpoint dict_get (d : PyDict) (k : string) : option Json :=
  match d with
  | [] => None
  | (k', v) :: r => if String.eqb k k' then Some v else dict_get r k
  end.

(** [d[k] = v]: an existing key keeps its place. *)
Fixpoint dict_set (d : PyDict) (k : string) (v : Json) : PyDict :=
  match d with
  | [] => [(k, v)]
  | (k', v') :: r =>
      if String.eqb k k' then (k, v) :: r else (k', v') :: dict_set r k v
  end.

(** [dict(pairs)] *)
Definition dict_of_pairs (pairs : list (string * Json)) : PyDict :=
  fold_left (fun d kv => dict_set d (fst kv) (snd kv)) pairs [].

(** The result of scanning one item: the value and what is left,
    [StopIteration] at a place, a decode error at a place, or another
    exception. *)
Inductive Scan (A : Type) : Type :=
| Got (a : A) (rest : list ascii)
| Stop (at_ : list ascii)
| Bad (msg : string) (at_ : list ascii)
| Raise (e : PyException).
Arguments Got {A}.
Arguments Stop {A}.
Arguments Bad {A}.
Arguments Raise {A}.

(** What [NUMBER_RE] and the conversion of its match give: no match, the
    number and what is left, or the exception of the conversion. *)
Inductive Number : Type :=
| NoNumber
| IsNumber (v : Json) (rest : list ascii)
| NumberRaises (e : PyException).

Definition is_ws (c : ascii) : bool :=
  match c with
  | " "%char | "009"%char | "010"%char | "013"%char => true
  | _ => false
  end.

(** [WHITESPACE.match(s, end).end()] *)
Fixpoint skip_ws (s : list ascii) : list ascii :=
  match s with
  | c :: r => if is_ws c then skip_ws r else s
  | [] => []
  end.

Definition digit_val (c : ascii) : option Z :=
  let n := Z.of_N (N_of_ascii c) in
  if (48 <=? n) && (n <=? 57) then Some (n - 48) else None.

Definition hex_val (c : ascii) : option Z :=
  let n := Z.of_N (N_of_ascii c) in
  if (48 <=? n) && (n <=? 57) then Some (n - 48)
  else if (97 <=? n) && (n <=? 102) then Some (n - 87)
  else if (65 <=? n) && (n <=? 70) then Some (n - 55)
  else None.

(** [[0-9]*] from the front: the number read so far, how many digits were
    taken, and the rest. *)
Fixpoint take_digits (acc : Z) (cnt : Z) (s : list ascii) : Z * Z * list ascii :=
  match s with
  | c :: r =>
      match digit_val c with
      | Some d => take_digits (10 * acc + d) (cnt + 1) r
      | None => (acc, cnt, s)
      end
  | [] => (acc, cnt, [])
  end.

(** [[0-9]+] *)
Definition take_digits1 (s : list ascii) : option (Z * Z * list ascii) :=
  let '(n, cnt, r) := take_digits 0 0 s in
  if cnt =? 0 then None else Some (n, cnt, r).

Section Decoder.

Context {py : Interpreter}.

(** [NUMBER_RE]: an optional minus sign and an integer part ([0], or a
    nonzero digit and more digits), an optional fraction (a dot and one
    digit or more), an optional exponent ([e] or [E], an optional sign, one
    digit or more); and the conversion of its groups: [int(integer)] when
    there is neither a fraction nor an exponent, which raises [ValueError]
    for more digits than the interpreter converts;
    [float(integer + frac + exp)] otherwise. *)
Definition match_number (s : list ascii) : Number :=
  let '(neg, s1) :=
    match s with "-"%char :: r => (true, r) | _ => (false, s) end in
  let integer :=
    match s1 with
    | "0"%char :: r => Some (0, 1, r)
    | _ => take_digits1 s1
    end in
  match integer with
  | None => NoNumber
  | Some (ip, digits, s2) =>
      let '(frac, s3) :=
        match s2 with
        | "."%char :: r =>
            match take_digits1 r with
            | Some (f, cnt, r') => (Some (f, cnt), r')
            | None => (None, s2)
            end
        | _ => (None, s2)
        end in
      let '(exp, s4) :=
        match s3 with
        | "e"%char :: r | "E"%char :: r =>
            let '(eneg, r1) :=
              match r with
              | "-"%char :: r' => (true, r')
              | "+"%char :: r' => (false, r')
              | _ => (false, r)
              end in
            match take_digits1 r1 with
            | Some (e, _, r') => (Some (if eneg then - e else e), r')
            | None => (None, s3)
            end
        | _ => (None, s3)
        end in
      match frac, exp with
      | None, None =>
          if over_limit digits then NumberRaises (E_ValueError_int digits)
          else IsNumber (JInt (if neg then - ip else ip)) s4
      | _, _ =>
          let '(f, cnt) := match frac with Some fc => fc | None => (0, 0) end in
          let e := match exp with Some e => e | None => 0 end in
          IsNumber (JFloat (float_of_decimal neg (ip * 10 ^ cnt + f) (e - cnt))) s4
      end
  end.

(** Four hexadecimal digits after [\u]. *)
Definition decode_uXXXX (s : list ascii) : option (Z * list ascii) :=
  match s with
  | a :: b :: c :: d :: r =>
      match hex_val a, hex_val b, hex_val c, hex_val d with
      | Some x, Some y, Some z, Some w => Some (((x * 16 + y) * 16 + z) * 16 + w, r)
      | _, _, _, _ => None
      end
  | _ => None
  end.

(** The body of [scanstring] (strict mode): [s] starts after the opening
    quote, [begin_] at it; [acc] holds the characters read, reversed. *)
Fixpoint scanstring_loop (begin_ : list ascii) (acc : list ascii) (s : list ascii)
         (fuel : nat) : Scan string :=
  match fuel with
  | O => Bad "Unterminated string starting at" begin_
  | S fuel =>
      match s with
      | [] => Bad "Unterminated string starting at" begin_
      | "034"%char :: r => Got (of_chars (rev acc)) r
      | "\"%char :: r =>
          match r with
          | [] => Bad "Unterminated string starting at" begin_
          | "u"%char :: r1 =>
              match decode_uXXXX r1 with
              | None => Bad "Invalid \uXXXX escape" r
              | Some (uni, r2) =>
                  let single := scanstring_loop begin_ (rev (chr uni) ++ acc) r2 fuel in
                  if (55296 <=? uni) && (uni <=? 56319) then
                    match r2 with
                    | "\"%char :: "u"%char :: r3 =>
                        match decode_uXXXX r3 with
                        | Some (uni2, r4) =>
                            if (56320 <=? uni2) && (uni2 <=? 57343) then
                              let u := 65536 + Z.lor (Z.shiftl (uni - 55296) 10)
                                                     (uni2 - 56320) in
                              scanstring_loop begin_ (rev (chr u) ++ acc) r4 fuel
                            else single
                        | None => single
                        end
                    | _ => single
                    end
                  else single
              end
          | esc :: r1 =>
              let plain (c : ascii) := scanstring_loop begin_ (c :: acc) r1 fuel in
              match esc with
              | "034"%char => plain "034"%char
              | "\"%char => plain "\"%char
              | "/"%char => plain "/"%char
              | "b"%char => plain "008"%char
              | "f"%char => plain "012"%char
              | "n"%char => plain "010"%char
              | "r"%char => plain "013"%char
              | "t"%char => plain "009"%char
              | _ => Bad "Invalid \escape" s
              end
          end
      | c :: r =>
          if (N_of_ascii c <? 32)%N then Bad "Invalid control character at" s
          else scanstring_loop begin_ (c :: acc) r fuel
      end
  end.

Definition scanstring (begin_ s : list ascii) : Scan string :=
  scanstring_loop begin_ [] s (S (List.length s)).

Definition lit (p : string) (s : list ascii) : option (list ascii) :=
  strip_prefix (chars p) s.

(** [scan_once], [JSONArray] and [JSONObject].  Each call spends one unit
    of [fuel]; [json_loads] supplies more than any document can use.
    [depth] is how many more objects and arrays can be entered: the scanner
    raises [RecursionError] on the bracket or brace it has no room for. *)
Fixpoint scan_once (fuel : nat) (depth : nat) (s : list ascii) {struct fuel}
  : Scan Json :=
  match fuel with
  | O => Bad "Expecting value" s
  | S fuel =>
      match s with
      | [] => Stop s
      | "034"%char :: r =>
          match scanstring s r with
          | Got str rest => Got (JStr str) rest
          | Stop a => Stop a
          | Bad m a => Bad m a
          | Raise e => Raise e
          end
      | "{"%char :: r =>
          match depth with
          | O => Raise (E_RecursionError true)
          | S depth =>
              let r1 := skip_ws r in
              match r1 with
              | "}"%char :: r2 => Got (JDict []) r2
              | "034"%char :: _ => JSONObject fuel depth [] r1
              | _ => Bad "Expecting property name enclosed in double quotes" r1
              end
          end
      | "["%char :: r =>
          match depth with
          | O => Raise (E_RecursionError false)
          | S depth =>
              let r1 := skip_ws r in
              match r1 with
              | "]"%char :: r2 => Got (JList []) r2
              | _ => JSONArray fuel depth [] r1
              end
          end
      | _ =>
          match lit "null" s, lit "true" s, lit "false" s with
          | Some r, _, _ => Got JNone r
          | _, Some r, _ => Got (JBool true) r
          | _, _, Some r => Got (JBool false) r
          | None, None, None =>
              match match_number s with
              | IsNumber v r => Got v r
              | NumberRaises e => Raise e
              | NoNumber =>
                  match lit "NaN" s, lit "Infinity" s, lit "-Infinity" s with
                  | Some r, _, _ => Got (JFloat nan) r
                  | _, Some r, _ => Got (JFloat (inf false)) r
                  | _, _, Some r => Got (JFloat (inf true)) r
                  | None, None, None => Stop s
                  end
              end
          end
      end
  end

(** the [while True] of [JSONArray]; [acc] holds the values, reversed *)
with JSONArray (fuel : nat) (depth : nat) (acc : list Json) (s : list ascii)
     {struct fuel} : Scan Json :=
  match fuel with
  | O => Bad "Expecting value" s
  | S fuel =>
      match scan_once fuel depth s with
      | Got v rest =>
          let rest1 := skip_ws rest in
          match rest1 with
          | "]"%char :: r => Got (JList (rev (v :: acc))) r
          | ","%char :: r => JSONArray fuel depth (v :: acc) (skip_ws r)
          | _ => Bad "Expecting ',' delimiter" rest1
          end
      | Stop a => Bad "Expecting value" a
      | Bad m a => Bad m a
      | Raise e => Raise e
      end
  end

(** the [while True] of [JSONObject]; [s] starts at the quote of a key,
    [acc] holds the pairs, reversed *)
with JSONObject (fuel : nat) (depth : nat) (acc : list (string * Json))
     (s : list ascii) {struct fuel} : Scan Json :=
  match fuel with
  | O => Bad "Expecting value" s
  | S fuel =>
      match s with
      | "034"%char :: r =>
          match scanstring s r with
          | Got key rest =>
              let rest1 := skip_ws rest in
              match rest1 with
              | ":"%char :: r2 =>
                  match scan_once fuel depth (skip_ws r2) with
                  | Got v rest2 =>
                      let rest3 := skip_ws rest2 in
                      match rest3 with
                      | "}"%char :: r4 =>
                          Got (JDict (dict_of_pairs (rev ((key, v) :: acc)))) r4
                      | ","%char :: r4 =>
                          let r5 := skip_ws r4 in
                          match r5 with
                          | "034"%char :: _ =>
                              JSONObject fuel depth ((key, v) :: acc) r5
                          | _ => Bad "Expecting property name enclosed in double quotes" r5
                          end
                      | _ => Bad "Expecting ',' delimiter" rest3
                      end
                  | Stop a => Bad "Expecting value" a
                  | Bad m a => Bad m a
                  | Raise e => Raise e
                  end
              | _ => Bad "Expecting ':' delimiter" rest1
              end
          | Stop a => Stop a
          | Bad m a => Bad m a
          | Raise e => Raise e
          end
      | _ => Bad "Expecting property name enclosed in double quotes" s
      end
  end.

(** [json.loads(s)]: the decoded value, or the exception raised: a
    [JSONDecodeError], or the [ValueError] or [RecursionError] of the
    scanner. *)
Definition json_loads (s : string) : PyException + Json :=
  let cs := chars s in
  let err m a := inl (E_JSONDecodeError (mkDecodeError m s a)) in
  match strip_prefix ["239"%char; "187"%char; "191"%char] cs with
  | Some _ => err "Unexpected UTF-8 BOM (decode using utf-8-sig)" cs
  | None =>
      match scan_once (2 * List.length cs + 2) recursion_room (skip_ws cs) with
      | Got v rest =>
          match skip_ws rest with
          | [] => inr v
          | rest' => err "Extra data" rest'
          end
      | Stop a => err "Expecting value" a
      | Bad m a => err m a
      | Raise e => inl e
      end
  end.

End Decoder.

End Json.
Export Json.

(* ------------------------------------------------------------------ *)
(** ** pydantic: validation errors, fields, schemas *)

Module Pydantic.

Definition nl : string := String "010" "".

Fixpoint join (sep : string) (l : list string) : string :=
  match l with
  | [] => ""
  | [x] => x
  | x :: r => x ++ sep ++ join sep r
  end.

(** Of [model_json_schema()], what [_schema_hint] reads: for each property
    its ["type"] and ["description"] (either may be absent), and the list
    under ["required"]. *)
Record Property : Type := mkProperty
  { prop_type : option string; prop_description : option string }.

Record JsonSchema : Type := mkJsonSchema
  { properties : list (string * Property); required : list string }.

(** The schema capability: a [BaseModel] subclass, as [generate.py] uses
    it.  [model_validate] returns the instance or raises: a
    [ValidationError] for data the model refuses, and whatever else a
    validator of the model's own may raise. *)
Record Schema (T : Type) : Type := mkSchema
  { model_json_schema : JsonSchema;
    model_validate : Json -> PyException + T }.
Arguments model_json_schema {T}.
Arguments model_validate {T}.

(** *** Field validators (lax mode, Python input) *)

Definition FieldResult (A : Type) : Type := list ErrorDetails + A.

(** [str] with [min_length] and [max_length].  The validator reads the
    [str] as UTF-8, which fails for one that holds a surrogate. *)
Definition validate_str (min_length max_length : option Z) (at_loc : list string)
           (v : Json) : FieldResult string :=
  match v with
  | JStr s =>
      let n := py_len s in
      if has_surrogate (chars s) then
        inl [mkError "string_unicode" at_loc
               "Input should be a valid string, unable to parse raw data as a unicode string"]
      else
      match min_length, max_length with
      | Some lo, _ =>
          if n <? lo then
            inl [mkError "string_too_short" at_loc
                   ("String should have at least " ++ str_of_int lo ++ " character"
                      ++ (if lo =? 1 then "" else "s"))]
          else
            match max_length with
            | Some hi =>
                if hi <? n then
                  inl [mkError "string_too_long" at_loc
                         ("String should have at most " ++ str_of_int hi ++ " character"
                            ++ (if hi =? 1 then "" else "s"))]
                else inr s
            | None => inr s
            end
      | None, Some hi =>
          if hi <? n then
            inl [mkError "string_too_long" at_loc
                   ("String should have at most " ++ str_of_int hi ++ " character"
                      ++ (if hi =? 1 then "" else "s"))]
          else inr s
      | None, None => inr s
      end
  | _ => inl [mkError "string_type" at_loc "Input should be a valid string"]
  end.

(** the items of a [list[str]], each at its index *)
Fixpoint validate_str_items (at_loc : list string) (i : Z) (l : list Json)
  : list ErrorDetails * list string :=
  match l with
  | [] => ([], [])
  | v :: r =>
      let '(errs, vals) := validate_str_items at_loc (i + 1) r in
      match validate_str None None (at_loc ++ [str_of_int i])%list v with
      | inl e => ((e ++ errs)%list, vals)
      | inr s => (errs, s :: vals)
      end
  end.

(** [list[str]] with [min_length] and [max_length] (the names [min_items]
    and [max_items] of [Field] are the deprecated spelling of these) *)
Definition validate_list_str (min_length max_length : Z) (at_loc : list string)
           (v : Json) : FieldResult (list string) :=
  match v with
  | JList l =>
      let n := Z.of_nat (List.length l) in
      let plural (k : Z) := if k =? 1 then "" else "s" in
      if max_length <? n then
        inl [mkError "too_long" at_loc
               ("List should have at most " ++ str_of_int max_length ++ " item"
                  ++ plural max_length ++ " after validation, not " ++ str_of_int n)]
      else
        match validate_str_items at_loc 0 l with
        | ([], vals) =>
            if n <? min_length then
              inl [mkError "too_short" at_loc
                     ("List should have at least " ++ str_of_int min_length ++ " item"
                        ++ plural min_length ++ " after validation, not " ++ str_of_int n)]
            else inr vals
        | (errs, _) => inl errs
        end
  | _ => inl [mkError "list_type" at_loc "Input should be a valid list"]
  end.

(** *** A string as a float

    Lax mode accepts a [str] for a [float] field when, with surrounding
    white space removed, it reads as a number: an optional sign, then
    [inf], [infinity] or [nan] in any case, or digits with an optional dot
    (a digit on one side of it at least) and an optional exponent; or when
    it does so once single underscores between its characters are
    removed. *)

(** The characters with the Unicode property White_Space, in UTF-8: U+0009
    to U+000D, U+0020, U+0085, U+00A0, U+1680, U+2000 to U+200A, U+2028,
    U+2029, U+202F, U+205F and U+3000. *)
Definition white_space : list (list ascii) :=
  map chr
    ([9; 10; 11; 12; 13; 32; 133; 160; 5760]
       ++ map (fun i => 8192 + Z.of_nat i) (seq 0 11)
       ++ [8232; 8233; 8239; 8287; 12288])%list.

(** What follows one of the given words at the front of [s], if one is
    there. *)
Fixpoint strip_any (words : list (list ascii)) (s : list ascii)
  : option (list ascii) :=
  match words with
  | [] => None
  | w :: rest =>
      match strip_prefix w s with
      | Some t => Some t
      | None => strip_any rest s
      end
  end.

(** [s] without the given words at its front, as long as there are any;
    [fuel] bounds how many are removed. *)
Fixpoint strip_all (words : list (list ascii)) (fuel : nat) (s : list ascii)
  : list ascii :=
  match fuel with
  | O => s
  | S fuel =>
      match strip_any words s with
      | Some t => strip_all words fuel t
      | None => s
      end
  end.

Definition ltrim (s : list ascii) : list ascii :=
  strip_all white_space (List.length s) s.

(** the same at the end: on the reversed text, with the characters'
    bytes reversed *)
Definition rtrim (s : list ascii) : list ascii :=
  rev (strip_all (map (@rev ascii) white_space) (List.length s) (rev s)).

(** [s.trim()] *)
Definition trim (s : list ascii) : list ascii := rtrim (ltrim s).

Definition lower (c : ascii) : ascii :=
  let n := N_of_ascii c in
  if ((65 <=? n) && (n <=? 90))%N then ascii_of_N (n + 32) else c.

Definition parse_float (s : list ascii) : option float :=
  let '(neg, s1) :=
    match s with
    | "-"%char :: r => (true, r)
    | "+"%char :: r => (false, r)
    | _ => (false, s)
    end in
  let low := of_chars (map lower s1) in
  if String.eqb low "inf" || String.eqb low "infinity" then Some (inf neg)
  else if String.eqb low "nan" then Some nan
  else
    let '(ip, icnt, s2) := take_digits 0 0 s1 in
    let '(fp, fcnt, s3) :=
      match s2 with
      | "."%char :: r => take_digits 0 0 r
      | _ => (0, 0, s2)
      end in
    if icnt + fcnt =? 0 then None
    else
      let exp :=
        match s3 with
        | [] => Some 0
        | "e"%char :: r | "E"%char :: r =>
            let '(eneg, r1) :=
              match r with
              | "-"%char :: r' => (true, r')
              | "+"%char :: r' => (false, r')
              | _ => (false, r)
              end in
            match take_digits1 r1 with
            | Some (e, _, []) => Some (if eneg then - e else e)
            | _ => None
            end
        | _ => None
        end in
      match exp with
      | Some e => Some (float_of_decimal neg (ip * 10 ^ fcnt + fp) (e - fcnt))
      | None => None
      end.

Definition underscore (c : ascii) : bool := Ascii.eqb c "_"%char.

Fixpoint has_double_underscore (s : list ascii) : bool :=
  match s with
  | a :: (b :: _) as r => underscore a && underscore b || has_double_underscore r
  | _ => false
  end.

Definition strip_underscores (s : list ascii) : option (list ascii) :=
  let starts := match s with c :: _ => underscore c | [] => false end in
  let ends := match rev s with c :: _ => underscore c | [] => false end in
  if starts || ends || has_double_underscore s then None
  else if existsb underscore s then Some (filter (fun c => negb (underscore c)) s)
  else None.

Definition str_as_float (s : string) : option float :=
  match parse_float (trim (chars s)) with
  | Some f => Some f
  | None =>
      match strip_underscores (chars s) with
      | Some stripped => parse_float stripped
      | None => None
      end
  end.

(** What a [float] field makes of its input: a [float] as it is, an [int]
    converted, a [bool] as 1 or 0, a [str] parsed; everything else
    refused. *)
Definition float_input (at_loc : list string) (v : Json) : FieldResult float :=
  let type_error := inl [mkError "float_type" at_loc "Input should be a valid number"] in
  match v with
  | JFloat f => inr f
  | JInt n => match float_of_int n with Some f => inr f | None => type_error end
  | JBool b => inr (if b then 1%float else 0%float)
  | JStr s =>
      match str_as_float s with
      | Some f => inr f
      | None =>
          inl [mkError "float_parsing" at_loc
                 "Input should be a valid number, unable to parse string as a number"]
      end
  | _ => type_error
  end.

(** [float] with [ge] and [le].  A NaN satisfies neither bound. *)
Definition validate_float (ge le : float) (ge_txt le_txt : string)
           (at_loc : list string) (v : Json) : FieldResult float :=
  match float_input at_loc v with
  | inl e => inl e
  | inr f =>
      if negb (PrimFloat.leb f le) then
        inl [mkError "less_than_equal" at_loc
               ("Input should be less than or equal to " ++ le_txt)]
      else if negb (PrimFloat.leb ge f) then
        inl [mkError "greater_than_equal" at_loc
               ("Input should be greater than or equal to " ++ ge_txt)]
      else inr f
  end.

(** A required field of a model: absent from the input, [missing]. *)
Definition required_field {A : Type} (name : string)
           (validator : list string -> Json -> FieldResult A) (d : PyDict)
  : FieldResult A :=
  match dict_get d name with
  | Some v => validator [name] v
  | None => inl [mkError "missing" [name] "Field required"]
  end.

Definition field_errors {A : Type} (r : FieldResult A) : list ErrorDetails :=
  match r with inl e => e | inr _ => [] end.

End Pydantic.
Export Pydantic.

(* ------------------------------------------------------------------ *)
(** ** [llm/schema.py] *)

Module SchemaPy.

(** [class SimpleResult(BaseModel)] *)
Record SimpleResult : Type := mkSimpleResult
  { title : string; items : list string; confidence : float }.

Definition title_field : list string -> Json -> FieldResult string :=
  validate_str (Some 1) (Some 200).

Definition items_field : list string -> Json -> FieldResult (list string) :=
  validate_list_str 1 10.

Definition confidence_field : list string -> Json -> FieldResult float :=
  validate_float 0%float 1%float "0" "1".

(** [SimpleResult.model_validate(data)]: the input must be a [dict]; every
    field is looked up and validated, and the errors of all of them are
    reported together.  The model sets no [extra] policy, so pydantic's
    default applies: keys that are no field are ignored. *)
Definition SimpleResult_model_validate (data : Json)
  : ValidationError + SimpleResult :=
  match data with
  | JDict d =>
      let t := required_field "title" title_field d in
      let i := required_field "items" items_field d in
      let c := required_field "confidence" confidence_field d in
      match t, i, c with
      | inr t', inr i', inr c' => inr (mkSimpleResult t' i' c')
      | _, _, _ =>
          inl (mkValidationError "SimpleResult"
                 (field_errors t ++ field_errors i ++ field_errors c)%list)
      end
  | _ =>
      inl (mkValidationError "SimpleResult"
             [mkError "model_type" []
                "Input should be a valid dictionary or instance of SimpleResult"])
  end.

(** [SimpleResult.model_json_schema()], as far as [_schema_hint] reads it *)
Definition SimpleResult_json_schema : JsonSchema :=
  mkJsonSchema
    [("title",
      mkProperty (Some "string")
        (Some "A short title or summary (e.g., 'Café noise assessment')"));
     ("items",
      mkProperty (Some "array")
        (Some "A list of supporting points or observations"));
     ("confidence",
      mkProperty (Some "number")
        (Some "Confidence level in the result (0.0 to 1.0)"))]
    ["title"; "items"; "confidence"].

(** [SimpleResult] has no validator of its own: it raises nothing but
    [ValidationError]. *)
Definition SimpleResult_schema : Schema SimpleResult :=
  mkSchema SimpleResult SimpleResult_json_schema
    (fun data =>
       match SimpleResult_model_validate data with
       | inl e => inl (E_ValidationError e)
       | inr x => inr x
       end).

(** [x.model_dump()]: the instance as plain data *)
Definition model_dump (x : SimpleResult) : Json :=
  JDict [("title", JStr (title x));
         ("items", JList (map JStr (items x)));
         ("confidence", JFloat (confidence x))].

(** A [str] a field of type [str] can hold: one without surrogates. *)
Definition well_formed (s : string) : Prop := has_surrogate (chars s) = false.

(** What the declaration of [SimpleResult] asks of an instance. *)
Definition conforms (x : SimpleResult) : Prop :=
  (well_formed (title x) /\ 1 <= py_len (title x) <= 200)
  /\ (Forall well_formed (items x)
      /\ 1 <= Z.of_nat (List.length (items x)) <= 10)
  /\ PrimFloat.leb 0%float (confidence x) = true
  /\ PrimFloat.leb (confidence x) 1%float = true.

End SchemaPy.
Export SchemaPy.

(* ------------------------------------------------------------------ *)
(** ** [json.dumps(hint, ensure_ascii=False, indent=2)] *)

Module JsonDumps.

(** The values a schema hint is made of. *)
Inductive Hint : Type :=
| HNone
| HStr (s : string)
| HList (l : list Hint)
| HDict (d : list (string * Hint)).

Definition hex_digit (n : N) : ascii :=
  if (n <? 10)%N then ascii_of_N (48 + n) else ascii_of_N (87 + n).

(** [ESCAPE_DCT]: backslash, quote and the control characters *)
Definition escape_char (c : ascii) : list ascii :=
  match c with
  | "\"%char => ["\"; "\"]%char
  | "034"%char => ["\"; "034"]%char
  | "008"%char => ["\"; "b"]%char
  | "012"%char => ["\"; "f"]%char
  | "010"%char => ["\"; "n"]%char
  | "013"%char => ["\"; "r"]%char
  | "009"%char => ["\"; "t"]%char
  | _ =>
      let n := N_of_ascii c in
      if (n <? 32)%N then
        ["\"; "u"; "0"; "0"]%char ++ [hex_digit (n / 16); hex_digit (n mod 16)]
      else [c]
  end%list.

Definition dq : string := String "034" "".

(** [encode_basestring] *)
Definition encode_str (s : string) : string :=
  dq ++ of_chars (flat_map escape_char (chars s)) ++ dq.

(** The encoder at indentation [cur], two spaces a level. *)
Fixpoint dumps (cur : string) (h : Hint) : string :=
  let inner := cur ++ "  " in
  match h with
  | HNone => "null"
  | HStr s => encode_str s
  | HList [] => "[]"
  | HList l =>
      "[" ++ nl ++ inner
          ++ join ("," ++ nl ++ inner) (map (dumps inner) l)
          ++ nl ++ cur ++ "]"
  | HDict [] => "{}"
  | HDict d =>
      "{" ++ nl ++ inner
          ++ join ("," ++ nl ++ inner)
               (map (fun kv => encode_str (fst kv) ++ ": " ++ dumps inner (snd kv)) d)
          ++ nl ++ cur ++ "}"
  end.

Definition json_dumps_indent2 (h : Hint) : string := dumps "" h.

End JsonDumps.
Export JsonDumps.

(* ------------------------------------------------------------------ *)
(** ** [llm/generate.py] *)

Module GeneratePy.

(** [class StructuredGenerationError(RuntimeError)] *)
Record StructuredGenerationError : Type := mkStructuredGenerationError
  { message : string;
    last_raw_output : string;
    last_error : string;
    attempts : Z }.

Definition opt_hint (o : option string) : Hint :=
  match o with Some s => HStr s | None => HNone end.

(** [_schema_hint(schema)] *)
Definition _schema_hint {T : Type} (schema : Schema T) : string :=
  let full := model_json_schema schema in
  let props := properties full in
  let required := required full in
  let hint :=
    HDict [("type", HStr "object");
           ("required_keys", HList (map HStr required));
           ("properties",
            HDict (map (fun kv =>
                          (fst kv,
                           HDict [("type", opt_hint (prop_type (snd kv)));
                                  ("description",
                                   opt_hint (prop_description (snd kv)))]))
                       props))] in
  json_dumps_indent2 hint.

Definition rules : string :=
  "RULES:" ++ nl
  ++ "1) Output ONLY valid JSON. No markdown. No explanation. No code fences." ++ nl
  ++ "2) The JSON keys MUST match the schema exactly (no extra keys, no missing keys)." ++ nl
  ++ "3) Strings MUST be in double quotes." ++ nl
  ++ "4) No trailing commas." ++ nl
  ++ "5) If there is a confidence field, it MUST be a number between 0 and 1." ++ nl.

(** [_build_prompt(user_task, schema, *, previous_invalid=None,
    repair_mode=False)] *)
Definition _build_prompt {T : Type} (user_task : string) (schema : Schema T)
           (previous_invalid : option string) (repair_mode : bool) : string :=
  let schema_hint := _schema_hint schema in
  if negb repair_mode then
    rules ++ nl
    ++ "SCHEMA (follow this):" ++ nl
    ++ schema_hint ++ nl ++ nl
    ++ "TASK:" ++ nl
    ++ user_task ++ nl
  else
    rules ++ nl
    ++ "SCHEMA (follow this):" ++ nl
    ++ schema_hint ++ nl ++ nl
    ++ "Your previous output was invalid JSON or did not match the schema." ++ nl
    ++ "Repair it and output ONLY corrected JSON that matches the schema." ++ nl ++ nl
    ++ "INVALID OUTPUT:" ++ nl
    ++ opt_or previous_invalid "" ++ nl.

(** The generator capability: an object with a method
    [generate(prompt) -> str].  A call returns the text ([inr]) or raises
    an [Exception], carried as its [str(e)] ([inl]); either way it may
    change the object. *)
Class Client (G : Type) : Type :=
  generate : G -> string -> (string + string) * G.

(** One call of the generator, as seen from outside: what was sent and
    what came back. *)
Record Call : Type := mkCall
  { prompt : string; response : string + string }.

(** How a call of [generate_structured] ends: it returns an object, it
    raises its own [StructuredGenerationError], or an exception raised
    outside the [try] block goes through to the caller. *)
Inductive Outcome (T : Type) : Type :=
| Returned (obj : T)
| Raised (e : StructuredGenerationError)
| Propagated (exc : PyException).
Arguments Returned {T}.
Arguments Raised {T}.
Arguments Propagated {T}.

(** A run of [generate_structured]: how it ended, the client object
    afterwards, and the calls of the generator it made, in order. *)
Record Run (G T : Type) : Type := mkRun
  { outcome : Outcome T; client_after : G; history : list Call }.
Arguments mkRun {G T}.
Arguments outcome {G T}.
Arguments client_after {G T}.
Arguments history {G T}.

(** The loop's variables that live across attempts. *)
Record Vars : Type := mkVars { last_raw : string; last_err : string }.

(** The body of an attempt either returns from the function or goes on to
    the next attempt. *)
Inductive Step (T : Type) : Type :=
| Return (obj : T)
| Continue (v : Vars).
Arguments Return {T}.
Arguments Continue {T}.

Section Loop.

Context {py : Interpreter} {G T : Type} {client_class : Client G}.
Variable schema : Schema T.
Variable user_task : string.

(** lines 132-141: the prompt of attempt number [attempt] *)
Definition attempt_prompt (attempt : Z) (last_raw : string) : string :=
  if attempt =? 1 then _build_prompt user_task schema None false
  else _build_prompt user_task schema (Some last_raw) true.

(** lines 145-175: the [try] block, given what the call of
    [client.generate] did.  An exception of [json.loads] that is no
    [JSONDecodeError], or of [model_validate] that is no [ValidationError],
    is caught by the outer [except Exception], after [last_raw] was set. *)
Definition attempt_try (v : Vars) (resp : string + string) : Step T :=
  match resp with
  | inr raw =>
      let v1 := mkVars raw (last_err v) in
      match json_loads raw with
      | inl (E_JSONDecodeError e) =>
          Continue (mkVars (last_raw v1)
                           ("JSON parse error: " ++ exc_str (E_JSONDecodeError e)))
      | inl exc =>
          Continue (mkVars (last_raw v1) ("Client/LLM error: " ++ exc_str exc))
      | inr data =>
          match model_validate schema data with
          | inl (E_ValidationError e) =>
              Continue (mkVars (last_raw v1)
                               ("Schema validation error: "
                                  ++ exc_str (E_ValidationError e)))
          | inl exc =>
              Continue (mkVars (last_raw v1)
                               ("Client/LLM error: " ++ exc_str exc))
          | inr obj => Return obj
          end
      end
  | inl e => Continue (mkVars (last_raw v) ("Client/LLM error: " ++ e))
  end.

(** the [for attempt in ...] loop over the attempt numbers left; [None]
    when the loop runs to its end *)
Fixpoint for_attempt (todo : list Z) (client : G) (v : Vars)
  : option T * G * Vars * list Call :=
  match todo with
  | [] => (None, client, v, [])
  | attempt :: rest =>
      let prompt := attempt_prompt attempt (last_raw v) in
      let '(resp, client1) := generate client prompt in
      match attempt_try v resp with
      | Return obj => (Some obj, client1, v, [mkCall prompt resp])
      | Continue v1 =>
          let '(r, client2, v2, calls) := for_attempt rest client1 v1 in
          (r, client2, v2, mkCall prompt resp :: calls)
      end
  end.

(** lines 177-183: the [raise] after the loop.  The message is formatted
    first, and [str] of the number of attempts raises [ValueError] when the
    number has more digits than the interpreter converts. *)
Definition exhausted (attempts_total : Z) (v : Vars) : Outcome T :=
  match py_str attempts_total with
  | inr total =>
      Raised
        (mkStructuredGenerationError
           ("Failed to generate valid structured output after "
              ++ total ++ " attempts")
           (last_raw v)
           (str_or (last_err v) "Unknown error")
           attempts_total)
  | inl exc => Propagated exc
  end.

(** [generate_structured(client=..., schema=..., user_task=...,
    max_retries=...)], for a schema whose [model_json_schema()] returns *)
Definition generate_structured (client : G) (max_retries : Z) : Run G T :=
  let attempts_total := 1 + max_retries in
  let '(r, client1, v, calls) :=
    for_attempt (py_range 1 (attempts_total + 1)) client (mkVars "" "") in
  match r with
  | Some obj => mkRun (Returned obj) client1 calls
  | None => mkRun (exhausted attempts_total v) client1 calls
  end.

End Loop.

(** A schema as [generate_structured] is given it: any subclass of
    [BaseModel].  pydantic cannot write the JSON schema of every model: for
    some, [model_json_schema()] raises.  Those are given by the exception
    and by their validation. *)
Inductive SchemaClass (T : Type) : Type :=
| Describable (schema : Schema T)
| Undescribable (exc : PyException) (validate : Json -> PyException + T).
Arguments Describable {T}.
Arguments Undescribable {T}.

(** [generate_structured] for any schema.  The prompt is built outside the
    [try] block (lines 132-141), so the exception of [model_json_schema()]
    leaves the function from the first attempt, before the generator is
    called; with no attempt to make, no prompt is built. *)
Definition generate_structured_any {py : Interpreter} {G T : Type}
           {client_class : Client G} (schema : SchemaClass T)
           (user_task : string) (client : G) (max_retries : Z) : Run G T :=
  match schema with
  | Describable schema => generate_structured schema user_task client max_retries
  | Undescribable exc _ =>
      let attempts_total := 1 + max_retries in
      match py_range 1 (attempts_total + 1) with
      | [] => mkRun (exhausted attempts_total (mkVars "" "")) client []
      | _ :: _ => mkRun (Propagated exc) client []
      end
  end.

End GeneratePy.
Export GeneratePy.

(* ------------------------------------------------------------------ *)
(** ** Generators: the [FakeClient] of the tests, and a constant one *)

Module Clients.

(** [class FakeClient] of [tests/test_llm_schema_validation.py] *)
Record FakeClient : Type := mkFakeClient
  { outputs : list string; calls : Z }.

Definition FakeClient_init (outputs : list string) : FakeClient :=
  mkFakeClient outputs 0.

Definition FakeClient_generate (self : FakeClient) (prompt : string)
  : (string + string) * FakeClient :=
  match py_index (outputs self) (calls self) with
  | Some out => (inr out, mkFakeClient (outputs self) (calls self + 1))
  | None => (inl "list index out of range", self)
  end.

#[export] Instance FakeClient_client : Client FakeClient := FakeClient_generate.

(** A generator that returns the same text whatever it is asked. *)
Record ConstClient : Type := mkConstClient { text : string }.

#[export] Instance ConstClient_client : Client ConstClient :=
  fun self _ => (inr (text self), self).

End Clients.
Export Clients.

(* ------------------------------------------------------------------ *)
(** ** Notions the properties are stated with *)

Section Notions.

Context {py : Interpreter} {T : Type}.
Variable schema : Schema T.

(** What a response of the generator is worth: the object it validates to,
    if it is text that parses as JSON and satisfies the schema. *)
Definition validated (resp : string + string) : option T :=
  match resp with
  | inr raw =>
      match json_loads raw with
      | inr data =>
          match model_validate schema data with
          | inr obj => Some obj
          | inl _ => None
          end
      | inl _ => None
      end
  | inl _ => None
  end.

(** Whether an exception is a [JSONDecodeError]. *)
Definition is_decode_error (exc : PyException) : bool :=
  match exc with E_JSONDecodeError _ => true | _ => false end.

(** Whether an exception is a [ValidationError]. *)
Definition is_validation_error (exc : PyException) : bool :=
  match exc with E_ValidationError _ => true | _ => false end.

(** The ways an attempt fails, each with the reason the loop records: the
    generator raises; the text is no JSON; [json.loads] raises something
    else on it; the data does not satisfy the schema; the validation
    raises something else. *)
Inductive Failure : string + string -> string -> Prop :=
| transport_error (e : string) :
    Failure (inl e) ("Client/LLM error: " ++ e)
| parse_error (raw : string) (e : JSONDecodeError) :
    json_loads raw = inl (E_JSONDecodeError e) ->
    Failure (inr raw) ("JSON parse error: " ++ exc_str (E_JSONDecodeError e))
| decoder_error (raw : string) (exc : PyException) :
    json_loads raw = inl exc ->
    is_decode_error exc = false ->
    Failure (inr raw) ("Client/LLM error: " ++ exc_str exc)
| validation_error (raw : string) (data : Json) (e : ValidationError) :
    json_loads raw = inr data ->
    model_validate schema data = inl (E_ValidationError e) ->
    Failure (inr raw) ("Schema validation error: " ++ exc_str (E_ValidationError e))
| validator_error (raw : string) (data : Json) (exc : PyException) :
    json_loads raw = inr data ->
    model_validate schema data = inl exc ->
    is_validation_error exc = false ->
    Failure (inr raw) ("Client/LLM error: " ++ exc_str exc).

Definition failed (c : Call) : Prop := validated (response c) = None.

(** An [int] that [str] converts: one within the limit on digits. *)
Definition printable (n : Z) : Prop := over_limit (decimal_digits n) = false.

End Notions.

(** The text of the most recent response that is text, if any, the
    responses given newest first. *)
Fixpoint most_recent_raw (newest_first : list (string + string)) : string :=
  match newest_first with
  | [] => ""
  | inr raw :: _ => raw
  | inl _ :: older => most_recent_raw older
  end.

(** What [last_raw] holds after the calls [done], oldest first. *)
Definition carried (done : list Call) : string :=
  most_recent_raw (rev (map response done)).



(** Sending a generator the given prompts, one after the other: what it
    answers and what it is afterwards. *)
Fixpoint replay {G : Type} {client_class : Client G} (client : G)
         (prompts : list string) : list (string + string) * G :=
  match prompts with
  | [] => ([], client)
  | p :: rest =>
      let '(resp, client1) := generate client p in
      let '(resps, client2) := replay client1 rest in
      (resp :: resps, client2)
  end.

Definition is_text (resp : string + string) : bool :=
  match resp with inr _ => true | inl _ => false end.

(** How many of the responses are text. *)
Definition count_text (resps : list (string + string)) : Z :=
  Z.of_nat (List.length (filter is_text resps)).

(** The hint as [json.loads] gives it back: the same tree, as JSON data. *)
Fixpoint hint_to_json (h : Hint) : Json :=
  match h with
  | HNone => JNone
  | HStr s => JStr s
  | HList l => JList (map hint_to_json l)
  | HDict d => JDict (map (fun kv => (fst kv, hint_to_json (snd kv))) d)
  end.

(** No key twice in a [dict], at any depth. *)
Fixpoint distinct_keys (h : Hint) : Prop :=
  match h with
  | HNone | HStr _ => True
  | HList l => fold_right (fun x acc => distinct_keys x /\ acc) True l
  | HDict d =>
      NoDup (map fst d)
      /\ fold_right (fun kv acc => distinct_keys (snd kv) /\ acc) True d
  end.

(** The data [_schema_hint] dumps. *)
Definition hint_data {T : Type} (schema : Schema T) : Hint :=
  HDict [("type", HStr "object");
         ("required_keys", HList (map HStr (required (model_json_schema schema))));
         ("properties",
          HDict (map (fun kv =>
                        (fst kv,
                         HDict [("type", opt_hint (prop_type (snd kv)));
                                ("description",
                                 opt_hint (prop_description (snd kv)))]))
                     (properties (model_json_schema schema))))].

(** What a dumped value starts with: the [n] of [null], a quote, a bracket
    or a brace. *)
Definition token_start (l : list ascii) : Prop :=
  match l with
  | c :: _ => c = "n"%char \/ c = "034"%char \/ c = "["%char \/ c = "{"%char
  | [] => False
  end.

(** The text of one entry of a dumped [dict]. *)
Definition dumps_entry (inner : string) (kv : string * Hint) : string :=
  encode_str (fst kv) ++ ": " ++ dumps inner (snd kv).

(** How many lists and dicts inside one another a hint has. *)
Fixpoint hint_depth (h : Hint) : nat :=
  match h with
  | HNone | HStr _ => 0
  | HList l => S (fold_right (fun x acc => Nat.max (hint_depth x) acc) 0 l)%nat
  | HDict d =>
      S (fold_right (fun kv acc => Nat.max (hint_depth (snd kv)) acc) 0 d)%nat
  end.

(** A hint scans back: dumped at any indentation and followed by any
    text, it is read as its data, up to that text, given fuel for its
    length and room for its depth. *)
Definition scans_back {py : Interpreter} (h : Hint) : Prop :=
  distinct_keys h ->
  forall (cur : string) (tail : list ascii) (fuel depth : nat),
    Forall (fun c => c = " "%char) (chars cur) ->
    (List.length (chars (dumps cur h)) <= fuel)%nat ->
    (hint_depth h <= depth)%nat ->
    scan_once fuel depth (chars (dumps cur h) ++ tail)%list
    = Got (hint_to_json h) tail.

(** An optional string as JSON data: [None] is [null]. *)
Definition opt_json (o : option string) : Json :=
  match o with Some s => JStr s | None => JNone end.

(** An indentation: spaces only. *)
Definition all_spaces (cur : string) : Prop :=
  Forall (fun c => c = " "%char) (chars cur).





(** A character that is no digit and no letter [n]. *)
Definition plain (c : ascii) : Prop :=
  digit_val c = None /\ c <> "n"%char /\ c <> "N"%char.


(** The [float] a JSON number is: a [float] itself, an [int] converted. *)
Definition number_value (v : Json) : option float :=
  match v with
  | JFloat f => Some f
  | JInt n => float_of_int n
  | _ => None
  end.


(** The documents of the scenarios. *)
Definition doc_ok : string :=
  "{" ++ dq ++ "title" ++ dq ++ ":" ++ dq ++ "OK" ++ dq ++ ","
      ++ dq ++ "items" ++ dq ++ ":[" ++ dq ++ "x" ++ dq ++ "," ++ dq ++ "y" ++ dq
      ++ "," ++ dq ++ "z" ++ dq ++ "],"
      ++ dq ++ "confidence" ++ dq ++ ":0.8}".




Definition test_task : string := "Return a title, 3 items, and confidence.".

(** An interpreter to evaluate examples in: the limit of 4300 digits that
    CPython starts with, room for a hundred objects and arrays inside one
    another, and the empty text for every exception of the libraries (the
    properties are proved for every interpreter, and none depends on these
    texts). *)
Definition example_interpreter : Interpreter :=
  mkInterpreter 4300 100 (fun _ => "").

(** A number of 4301 digits. *)
Definition ten_pow_4300 : Z := 10 ^ 4300.

(** A model whose JSON schema pydantic cannot write, such as one with a
    field of type [Callable]: [model_json_schema()] raises
    [PydanticInvalidForJsonSchema].  No JSON value validates against it. *)
Definition callable_model : SchemaClass unit :=
  Undescribable (E_Exception "PydanticInvalidForJsonSchema")
    (fun _ =>
       inl (E_ValidationError
              (mkValidationError "CallableModel"
                 [mkError "callable_type" ["f"] "Input should be callable"]))).





Definition quoted_dict : PyDict :=
  [("title", JStr "Example");
   ("items", JList [JStr "a"; JStr "b"; JStr "c"]);
   ("confidence", JStr "0.5")].



(* ------------------------------------------------------------------ *)
(** ** The loop, attempt by attempt *)

Section LoopFacts.

Context {py : Interpreter} {G T : Type} {client_class : Client G}.
Variable schema : Schema T.
Variable user_task : string.


(** An attempt returns exactly when the response validates; otherwise it
    records the reason of the failure and keeps, as [last_raw], the text it
    got, or what it had when it got none. *)
Lemma attempt_try_spec (v : Vars) (resp : string + string) :
  match validated schema resp with
  | Some obj => attempt_try schema v resp = Return obj
  | None =>
      exists reason,
        Failure schema resp reason
        /\ attempt_try schema v resp
           = Continue (mkVars (most_recent_raw [resp; inr (last_raw v)]) reason)
  end.
Proof.
  unfold validated, attempt_try.
  destruct resp as [e | raw]; simpl.
  - eexists; split; [apply transport_error | reflexivity].
  - destruct (json_loads raw) as [exc | data] eqn:Hp.
    + destruct exc;
        try (eexists; split; [apply parse_error; exact Hp | reflexivity]);
        (eexists; split; [eapply decoder_error; [exact Hp | reflexivity] | reflexivity]).
    + destruct (model_validate schema data) as [exc | obj] eqn:Hv.
      * destruct exc;
          try (eexists; split;
               [eapply validation_error; eassumption | reflexivity]);
          (eexists; split;
           [eapply validator_error; [eassumption | eassumption | reflexivity]
           | reflexivity]).
      * reflexivity.
Qed.

Lemma Failure_not_validated (resp : string + string) (reason : string) :
  Failure schema resp reason -> validated schema resp = None.
Proof.
  unfold validated.
  intros [e | raw e Hp | raw exc Hp _ | raw data e Hp Hv | raw data exc Hp Hv _];
    [reflexivity | now rewrite Hp | now rewrite Hp | |];
    now rewrite Hp, Hv.
Qed.

Lemma Failure_reason_nonempty (resp : string + string) (reason : string) :
  Failure schema resp reason -> str_or reason "Unknown error" = reason.
Proof.
  intros [e | raw e Hp | raw exc Hp Hk | raw data e Hp Hv | raw data exc Hp Hv Hk];
    reflexivity.
Qed.

(** One turn of the loop, unfolded. *)
Lemma for_attempt_cons (attempt : Z) (rest : list Z) (client : G) (v : Vars) :
  for_attempt schema user_task (attempt :: rest) client v
  = let prompt := attempt_prompt schema user_task attempt (last_raw v) in
    let '(resp, client1) := generate client prompt in
    match attempt_try schema v resp with
    | Return obj => (Some obj, client1, v, [mkCall prompt resp])
    | Continue v1 =>
        let '(r, client2, v2, calls) :=
          for_attempt schema user_task rest client1 v1 in
        (r, client2, v2, mkCall prompt resp :: calls)
    end.
Proof. reflexivity. Qed.

(** Taking one turn of the loop apart: the response either validates, and
    the loop is over, or fails for a reason, and the rest of the loop runs
    from the updated variables. *)
Ltac loop_turn H resp client1 obj reason HF r2 c2 v2 calls2 Hrec :=
  rewrite for_attempt_cons in H; cbv zeta in H;
  match type of H with
  | context [generate ?c ?p] => destruct (generate c p) as [resp client1]
  end;
  let Hs := fresh "Hs" in
  let Hval := fresh "Hval" in
  match type of H with
  | context [attempt_try _ ?v resp] => pose proof (attempt_try_spec v resp) as Hs
  end;
  destruct (validated schema resp) as [obj|] eqn:Hval;
  [ rewrite Hs in H; injection H as <- <- <- <-
  | destruct Hs as (reason & HF & Hs); rewrite Hs in H;
    match type of H with
    | context [for_attempt _ _ ?l ?c ?v] =>
        destruct (for_attempt schema user_task l c v)
          as [[[r2 c2] v2] calls2] eqn:Hrec
    end;
    injection H as <- <- <- <- ].

Lemma most_recent_raw_app (l l' : list (string + string)) :
  most_recent_raw (l ++ l') = most_recent_raw (l ++ [inr (most_recent_raw l')]).
Proof.
  induction l as [|[e | raw] l IH]; simpl; [reflexivity | exact IH | reflexivity].
Qed.

Lemma most_recent_raw_initial (l : list (string + string)) :
  most_recent_raw (l ++ [inr ""]) = most_recent_raw l.
Proof.
  rewrite <- (app_nil_r l) at 2. now rewrite (most_recent_raw_app l []).
Qed.

(** The loop calls the generator at most once per attempt number. *)
Lemma for_attempt_length (todo : list Z) :
  forall client v r client' v' calls,
    for_attempt schema user_task todo client v = (r, client', v', calls) ->
    (List.length calls <= List.length todo)%nat.
Proof.
  induction todo as [|attempt rest IH]; intros client v r client' v' calls H.
  - injection H as <- <- <- <-. simpl. lia.
  - loop_turn H resp client1 obj reason HF r2 c2 v2 calls2 Hrec.
    + simpl. lia.
    + apply IH in Hrec. simpl. lia.
Qed.

(** Every call gets the prompt of its attempt number, built from the text
    of the latest response that was text ([last_raw] at the start of the
    loop when there is none yet). *)
Lemma for_attempt_prompts (todo : list Z) :
  forall client v r client' v' calls,
    for_attempt schema user_task todo client v = (r, client', v', calls) ->
    forall i call,
      nth_error calls i = Some call ->
      exists attempt,
        nth_error todo i = Some attempt
        /\ prompt call
           = attempt_prompt schema user_task attempt
               (most_recent_raw (rev (map response (firstn i calls))
                                   ++ [inr (last_raw v)])%list).
Proof.
  induction todo as [|attempt rest IH]; intros client v r client' v' calls H i call Hi.
  - injection H as <- <- <- <-. destruct i; discriminate.
  - loop_turn H resp client1 obj reason HF r2 c2 v2 calls2 Hrec.
    + destruct i as [|i]; [|destruct i; discriminate].
      injection Hi as <-. exists attempt. split; reflexivity.
    + destruct i as [|i].
      * injection Hi as <-. exists attempt. split; reflexivity.
      * simpl in Hi. destruct (IH _ _ _ _ _ _ Hrec i call Hi) as (a & Ha & Hp).
        exists a. split; [exact Ha|].
        rewrite Hp. f_equal. simpl.
        rewrite <- app_assoc. simpl.
        now rewrite (most_recent_raw_app _ [resp; inr (last_raw v)]).
Qed.

(** When the loop returns an object, it is what the last call's response
    validates to, and every call before it failed. *)
Lemma for_attempt_Some (todo : list Z) :
  forall client v obj client' v' calls,
    for_attempt schema user_task todo client v = (Some obj, client', v', calls) ->
    exists before final,
      calls = (before ++ [final])%list
      /\ Forall (failed schema) before
      /\ validated schema (response final) = Some obj.
Proof.
  induction todo as [|attempt rest IH]; intros client v obj client' v' calls H.
  - discriminate.
  - remember (Some obj) as r eqn:Hr.
    loop_turn H resp client1 obj' reason HF r2 c2 v2 calls2 Hrec.
    + exists [], (mkCall (attempt_prompt schema user_task attempt (last_raw v)) resp).
      repeat split; [constructor | simpl; congruence].
    + subst r2. destruct (IH _ _ _ _ _ _ Hrec) as (before & final & -> & Hb & Hf).
      exists (mkCall (attempt_prompt schema user_task attempt (last_raw v)) resp :: before),
             final.
      repeat split; [|exact Hf].
      constructor; [exact Hval | exact Hb].
Qed.

(** When the loop runs to its end, it has made one call per attempt number
    and all of them failed; [last_raw] is the text of the latest response
    that was text, and [last_err] the reason of the last failure. *)
Lemma for_attempt_None (todo : list Z) :
  forall client v client' v' calls,
    for_attempt schema user_task todo client v = (None, client', v', calls) ->
    List.length calls = List.length todo
    /\ Forall (failed schema) calls
    /\ last_raw v'
       = most_recent_raw (rev (map response calls) ++ [inr (last_raw v)])%list
    /\ (calls = [] -> v' = v)
    /\ (forall before final,
           calls = (before ++ [final])%list -> Failure schema (response final) (last_err v')).
Proof.
  induction todo as [|attempt rest IH]; intros client v client' v' calls H.
  - injection H as <- <- <-. repeat split; try constructor.
    intros [|? ?] ?; discriminate.
  - remember (@None T) as r eqn:Hr.
    loop_turn H resp client1 obj' reason HF r2 c2 v2 calls2 Hrec.
    + discriminate.
    + subst r2. destruct (IH _ _ _ _ _ Hrec) as (Hlen & Hall & Hraw & Hnil & Hlast).
      repeat split.
      * simpl. now rewrite Hlen.
      * constructor; [exact Hval | exact Hall].
      * rewrite Hraw. simpl. rewrite <- app_assoc. simpl.
        now rewrite (most_recent_raw_app _ [resp; inr (last_raw v)]).
      * discriminate.
      * intros before final Heq.
        destruct calls2 as [|c calls2].
        -- destruct before as [|? [|? ?]]; try discriminate.
           injection Heq as <-. now rewrite (Hnil eq_refl).
        -- destruct before as [|b before]; [discriminate|].
           injection Heq as _ Heq. exact (Hlast _ _ Heq).
Qed.

(** The calls of the loop are calls of the generator in sequence: each is
    made on the client as the call before left it. *)
Lemma for_attempt_replay (todo : list Z) :
  forall client v r client' v' calls,
    for_attempt schema user_task todo client v = (r, client', v', calls) ->
    replay client (map prompt calls) = (map response calls, client').
Proof.
  induction todo as [|attempt rest IH]; intros client v r client' v' calls H.
  - injection H as <- <- <- <-. reflexivity.
  - rewrite for_attempt_cons in H; cbv zeta in H.
    destruct (generate client (attempt_prompt schema user_task attempt (last_raw v)))
      as [resp client1] eqn:Hg.
    destruct (attempt_try schema v resp) as [obj | v1].
    + injection H as <- <- <- <-. cbn [map replay prompt response].
      now rewrite Hg.
    + destruct (for_attempt schema user_task rest client1 v1)
        as [[[r2 c2] v2] calls2] eqn:Hrec.
      injection H as <- <- <- <-. cbn [map replay prompt response].
      rewrite Hg. now rewrite (IH _ _ _ _ _ _ Hrec).
Qed.

(** Attempt numbers the loop does not reach do not matter; those after the
    ones it used up are tried next. *)
Lemma for_attempt_app (todo more : list Z) :
  forall client v r client' v' calls,
    for_attempt schema user_task todo client v = (r, client', v', calls) ->
    for_attempt schema user_task (todo ++ more) client v
    = match r with
      | Some obj => (Some obj, client', v', calls)
      | None =>
          let '(r2, client2, v2, calls2) :=
            for_attempt schema user_task more client' v' in
          (r2, client2, v2, (calls ++ calls2)%list)
      end.
Proof.
  induction todo as [|attempt rest IH]; intros client v r client' v' calls H.
  - injection H as <- <- <- <-. cbn [app].
    now destruct (for_attempt schema user_task more client v) as [[[r2 c2] v2] calls2].
  - rewrite <- app_comm_cons, for_attempt_cons. cbv zeta.
    rewrite for_attempt_cons in H; cbv zeta in H.
    destruct (generate client (attempt_prompt schema user_task attempt (last_raw v)))
      as [resp client1].
    destruct (attempt_try schema v resp) as [obj | v1].
    + now injection H as <- <- <- <-.
    + destruct (for_attempt schema user_task rest client1 v1)
        as [[[r2 c2] v2] calls2] eqn:Hrec.
      injection H as <- <- <- <-. rewrite (IH _ _ _ _ _ _ Hrec).
      destruct r2 as [obj|]; [reflexivity|].
      now destruct (for_attempt schema user_task more c2 v2) as [[[r3 c3] v3] calls3].
Qed.

End LoopFacts.

Lemma py_range_length (lo hi : Z) :
  List.length (py_range lo hi) = Z.to_nat (hi - lo).
Proof. unfold py_range. now rewrite length_map, length_seq. Qed.

Lemma py_range_nth (lo hi : Z) (i : nat) (a : Z) :
  nth_error (py_range lo hi) i = Some a -> a = lo + Z.of_nat i.
Proof.
  unfold py_range. rewrite nth_error_map.
  destruct (nth_error (seq 0 (Z.to_nat (hi - lo))) i) as [k|] eqn:Hk; [|discriminate].
  intros [= <-].
  assert (Hlt : (i < List.length (seq 0 (Z.to_nat (hi - lo))))%nat)
    by (apply nth_error_Some; congruence).
  rewrite (nth_error_nth' _ 0%nat Hlt) in Hk. rewrite length_seq in Hlt.
  rewrite seq_nth in Hk by exact Hlt. injection Hk as <-. reflexivity.
Qed.

(* ------------------------------------------------------------------ *)
(** ** Runs of [generate_structured] *)

Lemma map_seq_shift {A : Type} (f g : nat -> A) (len : nat) :
  forall a c : nat,
    (forall i : nat, f (a + i)%nat = g (c + i)%nat) ->
    map f (seq a len) = map g (seq c len).
Proof.
  induction len as [|len IH]; intros a c H; [reflexivity|].
  cbn [seq map]. f_equal.
  - specialize (H 0%nat). now rewrite !Nat.add_0_r in H.
  - apply IH. intros i. specialize (H (S i)).
    now rewrite !Nat.add_succ_r in H.
Qed.

Lemma py_range_app (lo mid hi : Z) :
  lo <= mid <= hi ->
  py_range lo hi = (py_range lo mid ++ py_range mid hi)%list.
Proof.
  intros [Hlo Hhi]. unfold py_range.
  replace (Z.to_nat (hi - lo)) with (Z.to_nat (mid - lo) + Z.to_nat (hi - mid))%nat
    by lia.
  rewrite seq_app, map_app. f_equal.
  apply map_seq_shift. intros i. lia.
Qed.

Lemma py_str_inr {py : Interpreter} (n : Z) (total : string) :
  py_str n = inr total -> total = str_of_int n /\ printable n.
Proof.
  unfold py_str, printable.
  destruct (over_limit (decimal_digits n)); [discriminate|].
  now intros [= <-].
Qed.

Lemma py_str_inl {py : Interpreter} (n : Z) (exc : PyException) :
  py_str n = inl exc -> exc = E_ValueError_str /\ ~ printable n.
Proof.
  unfold py_str, printable.
  destruct (over_limit (decimal_digits n)); [|discriminate].
  intros [= <-]. split; [reflexivity | discriminate].
Qed.

Lemma py_str_printable {py : Interpreter} (n : Z) :
  printable n -> py_str n = inr (str_of_int n).
Proof. unfold py_str, printable. now intros ->. Qed.

(** A number of one digit is within any limit. *)
Lemma printable_digit {py : Interpreter} (n : Z) : -9 <= n <= 9 -> printable n.
Proof.
  intros Hn. unfold printable, over_limit.
  assert (Hd : decimal_digits n = 1).
  { unfold decimal_digits.
    assert (Hk : exists k, (k <= 9)%nat /\ Z.abs n = Z.of_nat k)
      by (exists (Z.to_nat (Z.abs n)); lia).
    destruct Hk as (k & Hk & ->).
    do 10 (destruct k as [|k]; [reflexivity|]). lia. }
  rewrite Hd.
  destruct (0 <? int_max_str_digits) eqn:H0; [|reflexivity].
  apply Z.ltb_lt in H0. cbn [andb]. apply Z.ltb_ge. lia.
Qed.

Section RunFacts.

Context {py : Interpreter} {G T : Type} {client_class : Client G}.
Variable schema : Schema T.
Variable user_task : string.

(** A run is the loop over [range(1, attempts_total + 1)] from empty
    [last_raw] and [last_err]: it returns what the loop returned, or raises
    the failure made of the loop's variables. *)
Lemma run_cases (client : G) (max_retries : Z) :
  let run := generate_structured schema user_task client max_retries in
  let todo := py_range 1 (1 + max_retries + 1) in
  (exists obj v,
      for_attempt schema user_task todo client (mkVars "" "")
      = (Some obj, client_after run, v, history run)
      /\ outcome run = Returned obj)
  \/ (exists v,
         for_attempt schema user_task todo client (mkVars "" "")
         = (None, client_after run, v, history run)
         /\ outcome run = exhausted (1 + max_retries) v).
Proof.
  unfold generate_structured.
  destruct (for_attempt schema user_task (py_range 1 (1 + max_retries + 1))
              client (mkVars "" "")) as [[[r c] v] calls].
  destruct r as [obj|]; simpl; [left | right]; eauto.
Qed.

(** A run that returns made a last call that validates to what it returns,
    after calls that all failed. *)
Lemma run_returned (client : G) (max_retries : Z) (obj : T) :
  let run := generate_structured schema user_task client max_retries in
  outcome run = Returned obj ->
  exists before final,
    history run = (before ++ [final])%list
    /\ Forall (failed schema) before
    /\ validated schema (response final) = Some obj.
Proof.
  intros run; subst run; intros Hout.
  destruct (run_cases client max_retries) as [(o & v & Hloop & Ho) | (v & _ & Ho)];
    rewrite Ho in Hout;
    [|unfold exhausted in Hout; destruct (py_str (1 + max_retries)); discriminate].
  injection Hout as <-. exact (for_attempt_Some _ _ _ _ _ _ _ _ _ Hloop).
Qed.

(** A run that raises made one call per attempt of the budget, all failed;
    the failure carries the budget, the latest text received and the reason
    of the last failure. *)
Lemma run_raised (client : G) (max_retries : Z) (e : StructuredGenerationError) :
  let run := generate_structured schema user_task client max_retries in
  outcome run = Raised e ->
  List.length (history run) = Z.to_nat (1 + max_retries)
  /\ Forall (failed schema) (history run)
  /\ attempts e = 1 + max_retries
  /\ message e = "Failed to generate valid structured output after "
                   ++ str_of_int (1 + max_retries) ++ " attempts"
  /\ last_raw_output e = carried (history run)
  /\ (history run = [] -> last_error e = "Unknown error")
  /\ (forall before final,
         history run = (before ++ [final])%list ->
         Failure schema (response final) (last_error e)).
Proof.
  intros run; subst run; intros Hout.
  destruct (run_cases client max_retries) as [(o & v & _ & Ho) | (v & Hloop & Ho)];
    rewrite Ho in Hout; [discriminate|].
  unfold exhausted in Hout.
  destruct (py_str (1 + max_retries)) as [exc | total] eqn:Hstr; [discriminate|].
  apply py_str_inr in Hstr. destruct Hstr as [-> _].
  injection Hout as <-. cbn [attempts message last_raw_output last_error].
  destruct (for_attempt_None _ _ _ _ _ _ _ _ Hloop)
    as (Hlen & Hall & Hraw & Hnil & Hlast).
  repeat split.
  - rewrite Hlen, py_range_length. f_equal. lia.
  - exact Hall.
  - rewrite Hraw. apply most_recent_raw_initial.
  - intros Hempty. now rewrite (Hnil Hempty).
  - intros before final Heq. specialize (Hlast _ _ Heq).
    now rewrite (Failure_reason_nonempty _ _ _ Hlast).
Qed.

(** The only exception a run lets through is the [ValueError] of writing
    the number of attempts in the message of the failure, after one call per
    attempt of the budget, all failed. *)
Lemma run_propagated (client : G) (max_retries : Z) (exc : PyException) :
  let run := generate_structured schema user_task client max_retries in
  outcome run = Propagated exc ->
  exc = E_ValueError_str
  /\ ~ printable (1 + max_retries)
  /\ List.length (history run) = Z.to_nat (1 + max_retries)
  /\ Forall (failed schema) (history run).
Proof.
  intros run; subst run; intros Hout.
  destruct (run_cases client max_retries) as [(o & v & _ & Ho) | (v & Hloop & Ho)];
    rewrite Ho in Hout; [discriminate|].
  unfold exhausted in Hout.
  destruct (py_str (1 + max_retries)) as [exc' | total] eqn:Hstr; [|discriminate].
  injection Hout as ->. apply py_str_inl in Hstr. destruct Hstr as [-> Hn].
  destruct (for_attempt_None _ _ _ _ _ _ _ _ Hloop) as (Hlen & Hall & _).
  repeat split; [exact Hn | | exact Hall].
  rewrite Hlen, py_range_length. f_equal. lia.
Qed.

(** The run, from what the loop gives. *)
Lemma run_of_loop (client : G) (max_retries : Z)
      (r : option T) (client' : G) (v : Vars) (calls : list Call) :
  for_attempt schema user_task (py_range 1 (1 + max_retries + 1)) client
    (mkVars "" "")
  = (r, client', v, calls) ->
  generate_structured schema user_task client max_retries
  = mkRun (match r with
           | Some obj => Returned obj
           | None => exhausted (1 + max_retries) v
           end) client' calls.
Proof.
  intros H. unfold generate_structured. rewrite H. now destruct r.
Qed.

Lemma run_loop (client : G) (max_retries : Z) :
  let run := generate_structured schema user_task client max_retries in
  exists r v,
    for_attempt schema user_task (py_range 1 (1 + max_retries + 1)) client
      (mkVars "" "")
    = (r, client_after run, v, history run).
Proof.
  intros run.
  destruct (run_cases client max_retries)
    as [(o & v & Hloop & _) | (v & Hloop & _)]; eauto.
Qed.

(** A generator that answers every prompt alike and stays as it is, with
    an answer that does not validate, keeps the loop going to its end. *)
Lemma for_attempt_stuck (client : G) (resp : string + string) :
  (forall p, generate client p = (resp, client)) ->
  validated schema resp = None ->
  forall todo v,
    exists v' calls,
      for_attempt schema user_task todo client v = (None, client, v', calls).
Proof.
  intros Hg Hv todo. induction todo as [|attempt rest IH]; intros v.
  - now exists v, [].
  - rewrite for_attempt_cons. cbv zeta. rewrite Hg.
    pose proof (attempt_try_spec schema v resp) as Hs. rewrite Hv in Hs.
    destruct Hs as (reason & _ & ->).
    destruct (IH (mkVars (most_recent_raw [resp; inr (last_raw v)]) reason))
      as (v' & calls & ->).
    now eexists _, _.
Qed.

End RunFacts.



(* ------------------------------------------------------------------ *)
(** ** The properties *)


Lemma ten_pow_4300_pos : 0 < ten_pow_4300.
Proof. unfold ten_pow_4300. apply Z.pow_pos_nonneg; lia. Qed.

(** The number of 4301 digits is over the limit of 4300. *)
Lemma ten_pow_4300_unprintable :
  ~ printable (py := example_interpreter) ten_pow_4300
  /\ ~ printable (py := example_interpreter) (- ten_pow_4300).
Proof.
  assert (H : over_limit (py := example_interpreter) (decimal_digits ten_pow_4300)
              = true) by (vm_compute; reflexivity).
  assert (H' : decimal_digits (- ten_pow_4300) = decimal_digits ten_pow_4300).
  { unfold decimal_digits. rewrite Z.abs_opp. reflexivity. }
  unfold printable. rewrite H', H. split; discriminate.
Qed.

(** The constant generator, whose text is no JSON, never gets the loop to
    return. *)
Lemma garbage_history {py : Interpreter} (user_task : string) (todo : list Z)
      (v : Vars) :
  exists v' calls,
    for_attempt SimpleResult_schema user_task todo (mkConstClient "garbage") v
    = (None, mkConstClient "garbage", v', calls).
Proof.
  apply (for_attempt_stuck SimpleResult_schema user_task (mkConstClient "garbage")
           (inr "garbage")); reflexivity.
Qed.

(** C1, as the code has it.  The prompt is built outside the [try] block:
    with a model whose JSON schema pydantic cannot write, the run ends at the
    first attempt with the exception of [model_json_schema()], which is
    neither a returned value nor a [StructuredGenerationError], and the
    generator is not called.  And the message of the failure is formatted
    with [str] of the number of attempts: after [10 ^ 4300] failed attempts,
    a number of 4301 digits, that raises [ValueError] with the limit of 4300
    digits, and no [StructuredGenerationError] is raised. *)
Lemma C1_counterexample :
  (let run :=
     generate_structured_any (py := example_interpreter) callable_model
       test_task (FakeClient_init [doc_ok]) 2 in
   outcome run = Propagated (E_Exception "PydanticInvalidForJsonSchema")
   /\ history run = []
   /\ ~ (exists obj, outcome run = Returned obj)
   /\ ~ (exists e, outcome run = Raised e))
  /\ (let run :=
        generate_structured_any (py := example_interpreter)
          (Describable SimpleResult_schema) test_task (mkConstClient "garbage")
          (ten_pow_4300 - 1) in
      outcome run = Propagated E_ValueError_str
      /\ ~ (exists obj, outcome run = Returned obj)
      /\ ~ (exists e, outcome run = Raised e)).
Proof.
  split.
  - cbv zeta. unfold generate_structured_any, callable_model.
    change (py_range 1 (1 + 2 + 1)) with [1; 2; 3].
    cbn [outcome history].
    repeat split; try reflexivity; intros (x & Hx); discriminate.
  - cbv zeta. unfold generate_structured_any.
    destruct (garbage_history (py := example_interpreter) test_task
                (py_range 1 (1 + (ten_pow_4300 - 1) + 1)) (mkVars "" ""))
      as (v & calls & Hloop).
    rewrite (run_of_loop _ _ _ _ _ _ _ _ Hloop). cbn [outcome].
    assert (Hout : exhausted (T := SimpleResult) (py := example_interpreter)
                     (1 + (ten_pow_4300 - 1)) v
                   = Propagated E_ValueError_str).
    { unfold exhausted.
      destruct (py_str (1 + (ten_pow_4300 - 1))) as [exc | total] eqn:Hs.
      - apply py_str_inl in Hs. now destruct Hs as [-> _].
      - apply py_str_inr in Hs. destruct Hs as [_ Hp].
        replace (1 + (ten_pow_4300 - 1)) with ten_pow_4300 in Hp by lia.
        now elim (proj1 ten_pow_4300_unprintable). }
    rewrite Hout.
    repeat split; try reflexivity; intros (x & Hx); discriminate.
Qed.

(** C1, amended.  With a non-negative [max_retries], whatever the generator
    and the task:
    - for a schema that can write its JSON schema, and a number of attempts
      [1 + max_retries] that [str] converts, the run ends in exactly one of
      two ways: it returns an object, which is what the response of its last
      generator call validates to under the schema; or it raises a
      [StructuredGenerationError], after calls that all failed.  It never
      does both, and it never does neither;
    - for such a schema and a number of attempts that [str] does not
      convert, the run returns as above or, after calls that all failed,
      lets the [ValueError] of the conversion through;
    - for a schema whose [model_json_schema()] raises, the run lets that
      exception through before the generator is called. *)
Theorem C1_exactly_one_outcome
  (py : Interpreter) (G T : Type) (client_class : Client G)
  (user_task : string) (client : G) (max_retries : Z) :
  0 <= max_retries ->
  (forall schema : Schema T,
      printable (1 + max_retries) ->
      let run :=
        generate_structured_any (Describable schema) user_task client
          max_retries in
      ((exists obj,
           outcome run = Returned obj
           /\ exists before final,
               history run = (before ++ [final])%list
               /\ validated schema (response final) = Some obj)
       /\ ~ (exists e, outcome run = Raised e))
      \/ ((exists e, outcome run = Raised e /\ Forall (failed schema) (history run))
          /\ ~ (exists obj, outcome run = Returned obj)))
  /\ (forall schema : Schema T,
         ~ printable (1 + max_retries) ->
         let run :=
           generate_structured_any (Describable schema) user_task client
             max_retries in
         (exists obj,
             outcome run = Returned obj
             /\ exists before final,
                 history run = (before ++ [final])%list
                 /\ validated schema (response final) = Some obj)
         \/ (outcome run = Propagated E_ValueError_str
             /\ Forall (failed schema) (history run)))
  /\ (forall (exc : PyException) (validate : Json -> PyException + T),
         let run :=
           generate_structured_any (Undescribable exc validate) user_task client
             max_retries in
         outcome run = Propagated exc
         /\ history run = []
         /\ client_after run = client).
Proof.
  intros Hnonneg. split; [|split].
  - intros schema Hprint run. subst run. cbn [generate_structured_any].
    destruct (outcome (generate_structured schema user_task client max_retries))
      as [obj | e | exc] eqn:Hout.
    + left. split.
      * exists obj. split; [reflexivity|].
        destruct (run_returned schema user_task client max_retries obj Hout)
          as (before & final & Hh & _ & Hv).
        now exists before, final.
      * intros (e & He). discriminate.
    + right. split.
      * exists e. split; [reflexivity|].
        apply (run_raised schema user_task client max_retries e Hout).
      * intros (obj & Ho). discriminate.
    + destruct (run_propagated schema user_task client max_retries exc Hout)
        as (_ & Hn & _). contradiction.
  - intros schema Hprint run. subst run. cbn [generate_structured_any].
    destruct (outcome (generate_structured schema user_task client max_retries))
      as [obj | e | exc] eqn:Hout.
    + left. exists obj. split; [reflexivity|].
      destruct (run_returned schema user_task client max_retries obj Hout)
        as (before & final & Hh & _ & Hv).
      now exists before, final.
    + exfalso. apply Hprint.
      destruct (run_cases schema user_task client max_retries)
        as [(o & v & _ & Ho) | (v & _ & Ho)]; rewrite Ho in Hout;
        [discriminate|].
      unfold exhausted in Hout.
      destruct (py_str (1 + max_retries)) as [x | total] eqn:Hs; [discriminate|].
      now apply py_str_inr in Hs.
    + right.
      destruct (run_propagated schema user_task client max_retries exc Hout)
        as (-> & _ & _ & Hall).
      now split.
  - intros exc validate run. subst run. cbn [generate_structured_any].
    destruct (py_range 1 (1 + max_retries + 1)) as [|a l] eqn:Hr.
    + apply (f_equal (@List.length Z)) in Hr. rewrite py_range_length in Hr.
      cbn [List.length] in Hr. lia.
    + now repeat split.
Qed.

Lemma C1_exactly_one_outcome_witness :
  0 <= 2
  /\ printable (py := example_interpreter) (1 + 2)
  /\ let run :=
       generate_structured_any (py := example_interpreter)
         (Describable SimpleResult_schema) test_task
         (FakeClient_init ["not json at all"; doc_ok]) 2 in
     ((exists obj,
          outcome run = Returned obj
          /\ exists before final,
              history run = (before ++ [final])%list
              /\ validated (py := example_interpreter) SimpleResult_schema
                   (response final) = Some obj)
      /\ ~ (exists e, outcome run = Raised e))
     \/ ((exists e,
             outcome run = Raised e
             /\ Forall (failed (py := example_interpreter) SimpleResult_schema)
                  (history run))
         /\ ~ (exists obj, outcome run = Returned obj)).
Proof.
  assert (H0 : 0 <= 2) by lia.
  assert (Hp : printable (py := example_interpreter) (1 + 2))
    by (vm_compute; reflexivity).
  split; [exact H0|]. split; [exact Hp|].
  exact (proj1 (C1_exactly_one_outcome example_interpreter FakeClient SimpleResult
                  _ test_task (FakeClient_init ["not json at all"; doc_ok]) 2 H0)
               SimpleResult_schema Hp).
Defined.

(** C10, as the code has it.  With [max_retries = - 10 ^ 4300 - 1] the
    number of attempts is [- 10 ^ 4300], of 4301 digits: formatting the
    message of the failure raises [ValueError] with the limit of 4300
    digits, and no [StructuredGenerationError] is raised. *)
Lemma C10_counterexample :
  let run :=
    generate_structured (py := example_interpreter) SimpleResult_schema
      test_task (FakeClient_init [doc_ok]) (- ten_pow_4300 - 1) in
  - ten_pow_4300 - 1 < 0
  /\ outcome run = Propagated E_ValueError_str
  /\ ~ (exists e, outcome run = Raised e).
Proof.
  cbv zeta.
  pose proof ten_pow_4300_pos as Hpos.
  assert (Hneg : - ten_pow_4300 - 1 < 0) by lia.
  assert (Hloop : for_attempt (py := example_interpreter) SimpleResult_schema
                    test_task (py_range 1 (1 + (- ten_pow_4300 - 1) + 1))
                    (FakeClient_init [doc_ok]) (mkVars "" "")
                  = (None, FakeClient_init [doc_ok], mkVars "" "", [])).
  { unfold py_range.
    replace (Z.to_nat (1 + (- ten_pow_4300 - 1) + 1 - 1)) with 0%nat by lia.
    reflexivity. }
  rewrite (run_of_loop _ _ _ _ _ _ _ _ Hloop). cbn [outcome].
  assert (Hout : exhausted (T := SimpleResult) (py := example_interpreter)
                   (1 + (- ten_pow_4300 - 1)) (mkVars "" "")
                 = Propagated E_ValueError_str).
  { unfold exhausted.
    destruct (py_str (1 + (- ten_pow_4300 - 1))) as [exc | total] eqn:Hs.
    - apply py_str_inl in Hs. now destruct Hs as [-> _].
    - apply py_str_inr in Hs. destruct Hs as [_ Hp].
      replace (1 + (- ten_pow_4300 - 1)) with (- ten_pow_4300) in Hp by lia.
      now elim (proj2 ten_pow_4300_unprintable). }
  rewrite Hout. split; [exact Hneg|]. split; [reflexivity|].
  intros (e & He). discriminate.
Qed.

(** C10, amended.  With a negative [max_retries] the range of attempts is
    empty, whatever the schema: the generator is never called and the client
    is left as it was.  When [str] converts the number [1 + max_retries],
    the failure raised has [attempts = 1 + max_retries], an empty
    [last_raw_output] and ["Unknown error"] as [last_error]; when it does
    not, the [ValueError] of the conversion is what the caller gets. *)
Theorem C10_negative_budget
  (py : Interpreter) (G T : Type) (client_class : Client G)
  (schema : SchemaClass T) (user_task : string) (client : G) (max_retries : Z) :
  max_retries < 0 ->
  let run := generate_structured_any schema user_task client max_retries in
  history run = []
  /\ client_after run = client
  /\ (printable (1 + max_retries) ->
      exists e,
        outcome run = Raised e
        /\ attempts e = 1 + max_retries
        /\ last_raw_output e = ""
        /\ last_error e = "Unknown error")
  /\ (~ printable (1 + max_retries) -> outcome run = Propagated E_ValueError_str).
Proof.
  intros Hneg run.
  assert (Hrange : py_range 1 (1 + max_retries + 1) = []).
  { unfold py_range.
    now replace (Z.to_nat (1 + max_retries + 1 - 1)) with 0%nat by lia. }
  assert (Hrun : run = mkRun (exhausted (1 + max_retries) (mkVars "" "")) client []).
  { subst run. destruct schema as [schema | exc validate];
      cbn [generate_structured_any].
    - apply (run_of_loop schema user_task client max_retries None).
      now rewrite Hrange.
    - now rewrite Hrange. }
  rewrite Hrun. cbn [history client_after outcome]. unfold exhausted.
  split; [reflexivity|]. split; [reflexivity|]. split.
  - intros Hp. rewrite (py_str_printable _ Hp). eexists. now repeat split.
  - intros Hn. destruct (py_str (1 + max_retries)) as [exc | total] eqn:Hs.
    + apply py_str_inl in Hs. now destruct Hs as [-> _].
    + apply py_str_inr in Hs. now destruct Hs as [_ Hp].
Qed.

Lemma C10_negative_budget_witness :
  -1 < 0
  /\ history (generate_structured_any (py := example_interpreter)
                (Describable SimpleResult_schema) test_task
                (FakeClient_init [doc_ok]) (-1)) = [].
Proof.
  assert (H : -1 < 0) by lia.
  split; [exact H|].
  exact (proj1 (C10_negative_budget example_interpreter FakeClient SimpleResult _
                  (Describable SimpleResult_schema) test_task
                  (FakeClient_init [doc_ok]) (-1) H)).
Defined.

(** C2, as the code has it.  With a model whose JSON schema pydantic cannot
    write and [max_retries = 2], the one attempt made fails, in building its
    prompt, and what is raised is the exception of [model_json_schema()],
    not a [StructuredGenerationError].  And with [max_retries = 10 ^ 4300
    - 1] and a generator that always returns [garbage], every attempt fails
    and what is raised is the [ValueError] of writing the number of attempts
    in the message. *)
Lemma C2_counterexample :
  (let run :=
     generate_structured_any (py := example_interpreter) callable_model
       test_task (mkConstClient "garbage") 2 in
   0 <= 2
   /\ outcome run = Propagated (E_Exception "PydanticInvalidForJsonSchema")
   /\ ~ (exists e, outcome run = Raised e))
  /\ (let run :=
        generate_structured (py := example_interpreter) SimpleResult_schema
          test_task (mkConstClient "garbage") (ten_pow_4300 - 1) in
      0 <= ten_pow_4300 - 1
      /\ Forall (failed (py := example_interpreter) SimpleResult_schema)
           (history run)
      /\ outcome run = Propagated E_ValueError_str
      /\ ~ (exists e, outcome run = Raised e)).
Proof.
  split.
  - cbv zeta. unfold generate_structured_any, callable_model.
    change (py_range 1 (1 + 2 + 1)) with [1; 2; 3]. cbn [outcome].
    split; [lia|]. split; [reflexivity|]. intros (e & He). discriminate.
  - cbv zeta.
    assert (Hout : outcome (generate_structured (py := example_interpreter)
                              SimpleResult_schema test_task
                              (mkConstClient "garbage") (ten_pow_4300 - 1))
                   = Propagated E_ValueError_str).
    { destruct (garbage_history (py := example_interpreter) test_task
                  (py_range 1 (1 + (ten_pow_4300 - 1) + 1)) (mkVars "" ""))
        as (v & calls & Hloop).
      rewrite (run_of_loop _ _ _ _ _ _ _ _ Hloop). cbn [outcome].
      unfold exhausted.
      destruct (py_str (1 + (ten_pow_4300 - 1))) as [exc | total] eqn:Hs.
      - apply py_str_inl in Hs. now destruct Hs as [-> _].
      - apply py_str_inr in Hs. destruct Hs as [_ Hp].
        replace (1 + (ten_pow_4300 - 1)) with ten_pow_4300 in Hp by lia.
        now elim (proj1 ten_pow_4300_unprintable). }
    split; [pose proof ten_pow_4300_pos; lia|]. split.
    + apply (run_propagated _ _ _ _ _ Hout).
    + split; [exact Hout|]. rewrite Hout. intros (e & He). discriminate.
Qed.

(** C2, amended.  For a schema that can write its JSON schema and a
    non-negative [max_retries], the generator is called at most
    [max_retries + 1] times; and when every attempt made has failed, the
    budget is used up and the run raises a [StructuredGenerationError] whose
    [attempts] is [max_retries + 1], provided [str] converts that number
    (otherwise the [ValueError] of the conversion is raised).  In particular
    a generator that always returns [garbage], with [max_retries = 2], is
    called three times and the failure raised has [attempts = 3] and
    [last_raw_output = "garbage"]. *)
Theorem C2_attempt_budget :
  (forall (py : Interpreter) (G T : Type) (client_class : Client G)
          (schema : Schema T) (user_task : string) (client : G)
          (max_retries : Z),
      0 <= max_retries ->
      let run := generate_structured schema user_task client max_retries in
      Z.of_nat (List.length (history run)) <= max_retries + 1
      /\ (Forall (failed schema) (history run) ->
          Z.of_nat (List.length (history run)) = max_retries + 1
          /\ (printable (max_retries + 1) ->
              exists e, outcome run = Raised e /\ attempts e = max_retries + 1)
          /\ (~ printable (max_retries + 1) ->
              outcome run = Propagated E_ValueError_str)))
  /\ (forall (py : Interpreter) (user_task : string),
         let run :=
           generate_structured SimpleResult_schema user_task
             (mkConstClient "garbage") 2 in
         List.length (history run) = 3%nat
         /\ exists e,
             outcome run = Raised e
             /\ attempts e = 3
             /\ last_raw_output e = "garbage").
Proof.
  split.
  - intros py G T client_class schema user_task client max_retries Hnonneg run.
    replace (max_retries + 1) with (1 + max_retries) by lia.
    split.
    + destruct (run_cases schema user_task client max_retries)
        as [(o & v & Hloop & _) | (v & Hloop & _)];
        apply for_attempt_length in Hloop; fold run in Hloop;
        rewrite py_range_length in Hloop; lia.
    + intros Hall. destruct (outcome run) as [obj | e | exc] eqn:Hout.
      * destruct (run_returned schema user_task client max_retries obj Hout)
          as (before & final & Hh & _ & Hv).
        fold run in Hh. rewrite Hh in Hall.
        apply Forall_app in Hall as [_ Hfinal].
        inversion Hfinal as [|? ? Hf _]; subst.
        unfold failed in Hf. congruence.
      * destruct (run_raised schema user_task client max_retries e Hout)
          as (Hlen & _ & Hatt & _).
        fold run in Hlen. split; [lia|]. split.
        -- intros _. exists e. split; [reflexivity | exact Hatt].
        -- intros Hn. exfalso. apply Hn.
           destruct (run_cases schema user_task client max_retries)
             as [(o & v & _ & Ho) | (v & _ & Ho)]; fold run in Ho;
             rewrite Ho in Hout; [discriminate|].
           unfold exhausted in Hout.
           destruct (py_str (1 + max_retries)) as [x | total] eqn:Hs;
             [discriminate|].
           now apply py_str_inr in Hs.
      * destruct (run_propagated schema user_task client max_retries exc Hout)
          as (-> & Hn & Hlen & _).
        fold run in Hlen. split; [lia|]. split; [contradiction | reflexivity].
  - intros py user_task run. subst run.
    assert (Hloop : exists v calls,
               for_attempt SimpleResult_schema user_task (py_range 1 (1 + 2 + 1))
                 (mkConstClient "garbage") (mkVars "" "")
               = (None, mkConstClient "garbage", v, calls)
               /\ List.length calls = 3%nat
               /\ last_raw v = "garbage").
    { vm_compute. eexists _, _. repeat split. }
    destruct Hloop as (v & calls & Hloop & Hlen & Hraw).
    rewrite (run_of_loop _ _ _ _ _ _ _ _ Hloop). cbn [history outcome].
    split; [exact Hlen|].
    unfold exhausted. rewrite py_str_printable by (apply printable_digit; lia).
    eexists. split; [reflexivity|]. cbn [attempts last_raw_output].
    split; [reflexivity | exact Hraw].
Qed.

Lemma C2_attempt_budget_witness :
  0 <= 2
  /\ Z.of_nat
       (List.length
          (history (generate_structured (py := example_interpreter)
                      SimpleResult_schema test_task
                      (mkConstClient "garbage") 2))) <= 2 + 1.
Proof.
  assert (H : 0 <= 2) by lia.
  split; [exact H|].
  exact (proj1 (proj1 C2_attempt_budget example_interpreter ConstClient
                  SimpleResult _ SimpleResult_schema test_task
                  (mkConstClient "garbage") 2 H)).
Defined.

(** C3.  If the response of the call of attempt [k + 1] (the call at index
    [k] of the history) parses as JSON and validates against the schema,
    the run returns the validated object of that attempt, and that call is
    the last one: the generator is called [k + 1] times and no more.  In
    particular with the two outputs of the test, the first no JSON at all
    and the second a valid document, and [max_retries = 2], the generator is
    called exactly twice and the result has title [OK], items [x], [y], [z]
    and confidence 0.8 (the binary64 number the literal [0.8] denotes); this
    in any interpreter with room for the object and the array inside it. *)
Theorem C3_first_success_returns :
  (forall (py : Interpreter) (G T : Type) (client_class : Client G)
          (schema : Schema T) (user_task : string) (client : G)
          (max_retries : Z) (k : nat) (call : Call) (obj : T),
      let run := generate_structured schema user_task client max_retries in
      nth_error (history run) k = Some call ->
      validated schema (response call) = Some obj ->
      outcome run = Returned obj /\ List.length (history run) = S k)
  /\ (forall py : Interpreter,
         (2 <= recursion_room)%nat ->
         let run :=
           generate_structured SimpleResult_schema test_task
             (FakeClient_init ["not json at all"; doc_ok]) 2 in
         outcome run
         = Returned (mkSimpleResult "OK" ["x"; "y"; "z"] 0x1.999999999999ap-1)
         /\ calls (client_after run) = 2
         /\ List.length (history run) = 2%nat).
Proof.
  split.
  - intros py G T client_class schema user_task client max_retries k call obj run
           Hk Hv.
    assert (Hfailed : Forall (failed schema) (history run) -> False).
    { intros Hall. rewrite Forall_forall in Hall.
      apply nth_error_In in Hk. specialize (Hall _ Hk).
      unfold failed in Hall. congruence. }
    destruct (outcome run) as [obj' | e | exc] eqn:Hout.
    + destruct (run_returned schema user_task client max_retries obj' Hout)
        as (before & final & Hh & Hb & Hf).
      fold run in Hh. rewrite Hh in Hk |- *.
      destruct (Nat.lt_ge_cases k (List.length before)) as [Hlt | Hge].
      * rewrite nth_error_app1 in Hk by exact Hlt.
        apply nth_error_In in Hk.
        rewrite Forall_forall in Hb. specialize (Hb _ Hk).
        unfold failed in Hb. congruence.
      * rewrite nth_error_app2 in Hk by exact Hge.
        destruct (k - List.length before)%nat as [|j] eqn:Hj;
          [|destruct j; discriminate].
        injection Hk as ->. rewrite length_app. simpl.
        split; [congruence | lia].
    + elim Hfailed. apply (run_raised schema user_task client max_retries e Hout).
    + elim Hfailed.
      apply (run_propagated schema user_task client max_retries exc Hout).
  - intros py Hroom run. subst run.
    destruct py as [digits [|[|room]] render]; cbn [recursion_room] in Hroom;
      try lia.
    vm_compute. repeat split.
Qed.

Lemma C3_first_success_returns_witness :
  let run :=
    generate_structured (py := example_interpreter) SimpleResult_schema test_task
      (FakeClient_init ["not json at all"; doc_ok]) 2 in
  let call :=
    mkCall (attempt_prompt SimpleResult_schema test_task 2 "not json at all")
           (inr doc_ok) in
  let obj := mkSimpleResult "OK" ["x"; "y"; "z"] 0x1.999999999999ap-1 in
  nth_error (history run) 1 = Some call
  /\ validated (py := example_interpreter) SimpleResult_schema (response call)
     = Some obj
  /\ outcome run = Returned obj
  /\ List.length (history run) = 2%nat.
Proof.
  intros run call obj.
  assert (Hk : nth_error (history run) 1 = Some call) by (vm_compute; reflexivity).
  assert (Hv : validated (py := example_interpreter) SimpleResult_schema
                 (response call) = Some obj) by (vm_compute; reflexivity).
  split; [exact Hk|]. split; [exact Hv|].
  exact (proj1 C3_first_success_returns example_interpreter FakeClient SimpleResult
           _ SimpleResult_schema test_task
           (FakeClient_init ["not json at all"; doc_ok]) 2 1%nat call obj Hk Hv).
Defined.

(** C4.  The call of attempt 1 (index 0 of the history) is sent the normal
    prompt, built from the task; the call of every later attempt is sent the
    repair prompt, and the invalid output in it is the text of the most
    recent earlier call that returned text, or the empty string when none
    has: an attempt whose generator call raised leaves it as it was. *)
Theorem C4_prompt_modes
  (py : Interpreter) (G T : Type) (client_class : Client G) (schema : Schema T)
  (user_task : string) (client : G) (max_retries : Z)
  (i : nat) (call : Call) :
  let run := generate_structured schema user_task client max_retries in
  nth_error (history run) i = Some call ->
  prompt call
  = match i with
    | O => _build_prompt user_task schema None false
    | S _ =>
        _build_prompt user_task schema
          (Some (most_recent_raw (rev (map response (firstn i (history run))))))
          true
    end.
Proof.
  intros run Hi.
  destruct (run_loop schema user_task client max_retries) as (r & v & Hloop).
  fold run in Hloop.
  destruct (for_attempt_prompts _ _ _ _ _ _ _ _ _ Hloop i call Hi)
    as (attempt & Ha & Hp).
  apply py_range_nth in Ha. rewrite Hp. cbn [last_raw].
  rewrite most_recent_raw_initial. unfold attempt_prompt.
  destruct i as [|i].
  - subst attempt. reflexivity.
  - replace (attempt =? 1) with false by (symmetry; apply Z.eqb_neq; lia).
    reflexivity.
Qed.

Lemma C4_prompt_modes_witness :
  let run :=
    generate_structured (py := example_interpreter) SimpleResult_schema test_task
      (FakeClient_init ["not json at all"; doc_ok]) 2 in
  let call :=
    mkCall (_build_prompt test_task SimpleResult_schema
              (Some "not json at all") true)
           (inr doc_ok) in
  nth_error (history run) 1 = Some call
  /\ prompt call
     = _build_prompt test_task SimpleResult_schema
         (Some (most_recent_raw (rev (map response (firstn 1 (history run))))))
         true.
Proof.
  intros run call.
  assert (H : nth_error (history run) 1 = Some call) by (vm_compute; reflexivity).
  split; [exact H|].
  exact (C4_prompt_modes example_interpreter FakeClient SimpleResult _
           SimpleResult_schema test_task
           (FakeClient_init ["not json at all"; doc_ok]) 2 1%nat call H).
Defined.





(* ------------------------------------------------------------------ *)
(** ** Validation against [SimpleResult] *)

Lemma chars_app (a b : string) : chars (a ++ b) = (chars a ++ chars b)%list.
Proof.
  unfold chars. induction a as [|c a IH]; cbn [append list_ascii_of_string app];
    [reflexivity | now rewrite IH].
Qed.

Lemma chars_of_chars (l : list ascii) : chars (of_chars l) = l.
Proof. apply list_ascii_of_string_of_list_ascii. Qed.

Lemma of_chars_chars (s : string) : of_chars (chars s) = s.
Proof. apply string_of_list_ascii_of_string. Qed.

Lemma validate_str_well_formed (at_loc : list string) (s : string) :
  well_formed s -> validate_str None None at_loc (JStr s) = inr s.
Proof. unfold well_formed, validate_str. now intros ->. Qed.

Lemma validate_str_inr (lo hi : option Z) (at_loc : list string) (v : Json)
      (s : string) :
  validate_str lo hi at_loc v = inr s -> v = JStr s /\ well_formed s.
Proof.
  unfold validate_str, well_formed. destruct v; try discriminate.
  destruct (has_surrogate (chars s0)) eqn:Hs; [discriminate|].
  intros H. assert (s0 = s); [|now subst].
  destruct lo as [lo|], hi as [hi|];
    repeat match type of H with
           | (if ?c then _ else _) = _ => destruct c; try discriminate
           end;
    now injection H.
Qed.

Lemma validate_str_items_strings (at_loc : list string) (its : list string) :
  Forall well_formed its ->
  forall i, validate_str_items at_loc i (map JStr its) = ([], its).
Proof.
  induction 1 as [|s its Hs _ IH]; intros i; [reflexivity|].
  cbn [map validate_str_items]. rewrite IH.
  now rewrite (validate_str_well_formed _ _ Hs).
Qed.


Lemma title_field_ok (at_loc : list string) (t : string) :
  well_formed t -> 1 <= py_len t <= 200 -> title_field at_loc (JStr t) = inr t.
Proof.
  intros Hwf [Hlo Hhi]. unfold title_field, validate_str.
  unfold well_formed in Hwf. rewrite Hwf.
  destruct (Z.ltb_spec (py_len t) 1); [lia|].
  destruct (Z.ltb_spec 200 (py_len t)); [lia|]. reflexivity.
Qed.

Lemma items_field_ok (at_loc : list string) (its : list string) :
  Forall well_formed its ->
  1 <= Z.of_nat (List.length its) <= 10 ->
  items_field at_loc (JList (map JStr its)) = inr its.
Proof.
  intros Hwf [Hlo Hhi]. unfold items_field, validate_list_str.
  rewrite length_map, validate_str_items_strings by exact Hwf.
  destruct (Z.ltb_spec 10 (Z.of_nat (List.length its))); [lia|].
  destruct (Z.ltb_spec (Z.of_nat (List.length its)) 1); [lia|]. reflexivity.
Qed.

Lemma confidence_field_ok (at_loc : list string) (c : float) :
  PrimFloat.leb 0%float c = true -> PrimFloat.leb c 1%float = true ->
  confidence_field at_loc (JFloat c) = inr c.
Proof.
  intros Hge Hle. unfold confidence_field, validate_float. cbn [float_input].
  now rewrite Hle, Hge.
Qed.

(** An object conforming in its three declared fields validates, to the
    instance made of them, whatever else it holds. *)
Lemma SimpleResult_validates (d : PyDict) (x : SimpleResult) :
  dict_get d "title" = Some (JStr (title x)) ->
  dict_get d "items" = Some (JList (map JStr (items x))) ->
  dict_get d "confidence" = Some (JFloat (confidence x)) ->
  conforms x ->
  SimpleResult_model_validate (JDict d) = inr x.
Proof.
  intros Ht Hi Hc ((Htw & Htl) & (Hiw & Hil) & Hge & Hle).
  unfold SimpleResult_model_validate, required_field.
  rewrite Ht, Hi, Hc, title_field_ok, items_field_ok, confidence_field_ok
    by assumption.
  now destruct x.
Qed.


(** *** The order of binary64 numbers *)



(** *** Texts that name no number *)





















(* ------------------------------------------------------------------ *)
(** ** What a successful validation tells *)

Lemma required_field_inr {A : Type} (name : string)
      (validator : list string -> Json -> FieldResult A) (d : PyDict) (a : A) :
  required_field name validator d = inr a ->
  exists v, dict_get d name = Some v /\ validator [name] v = inr a.
Proof.
  unfold required_field. destruct (dict_get d name) as [v|]; [|discriminate].
  intros H. now exists v.
Qed.

Lemma title_field_inr (at_loc : list string) (v : Json) (t : string) :
  title_field at_loc v = inr t ->
  v = JStr t /\ well_formed t /\ 1 <= py_len t <= 200.
Proof.
  intros H. destruct (validate_str_inr _ _ _ _ _ H) as [-> Hw].
  split; [reflexivity|]. split; [exact Hw|].
  unfold title_field, validate_str in H. unfold well_formed in Hw. rewrite Hw in H.
  destruct (Z.ltb_spec (py_len t) 1); [discriminate|].
  destruct (Z.ltb_spec 200 (py_len t)); [discriminate|]. lia.
Qed.

Lemma validate_str_items_inr (at_loc : list string) (l : list Json) :
  forall i vals,
    validate_str_items at_loc i l = ([], vals) ->
    l = map JStr vals /\ Forall well_formed vals.
Proof.
  induction l as [|v l IH]; intros i vals H.
  - injection H as <-. split; [reflexivity | constructor].
  - cbn [validate_str_items] in H.
    destruct (validate_str_items at_loc (i + 1) l) as [errs rest] eqn:Hrest.
    destruct (validate_str None None (at_loc ++ [str_of_int i]) v) as [e | s] eqn:Hv.
    + injection H as H _. apply app_eq_nil in H as [-> _].
      destruct v; cbn [validate_str] in Hv; try discriminate.
      destruct (has_surrogate (chars s)); discriminate.
    + injection H as -> <-. apply validate_str_inr in Hv as [-> Hw].
      destruct (IH _ _ Hrest) as [-> Hall].
      split; [reflexivity | now constructor].
Qed.

Lemma items_field_inr (at_loc : list string) (v : Json) (its : list string) :
  items_field at_loc v = inr its ->
  v = JList (map JStr its)
  /\ Forall well_formed its
  /\ 1 <= Z.of_nat (List.length its) <= 10.
Proof.
  unfold items_field, validate_list_str. destruct v as [| | | | |l|]; try discriminate.
  destruct (Z.ltb_spec 10 (Z.of_nat (List.length l))); [discriminate|].
  destruct (validate_str_items at_loc 0 l) as [[|e errs] vals] eqn:Hitems;
    [|discriminate].
  destruct (Z.ltb_spec (Z.of_nat (List.length l)) 1); [discriminate|].
  intros [= <-]. apply validate_str_items_inr in Hitems as [-> Hall].
  rewrite length_map in *. split; [reflexivity|]. split; [exact Hall | lia].
Qed.

Lemma confidence_field_inr (at_loc : list string) (v : Json) (c : float) :
  confidence_field at_loc v = inr c ->
  (forall f, number_value v = Some f -> c = f)
  /\ PrimFloat.leb 0%float c = true /\ PrimFloat.leb c 1%float = true.
Proof.
  unfold confidence_field, validate_float.
  destruct (float_input at_loc v) as [e | f] eqn:Hin; [discriminate|].
  destruct (PrimFloat.leb f 1) eqn:Hle; cbn [negb]; [|discriminate].
  destruct (PrimFloat.leb 0 f) eqn:Hge; cbn [negb]; [|discriminate].
  intros [= <-]. split; [|now split].
  intros g Hg. destruct v; try discriminate; cbn [number_value] in Hg;
    cbn [float_input] in Hin.
  - rewrite Hg in Hin. now injection Hin.
  - injection Hg as <-. now injection Hin.
Qed.

Lemma SimpleResult_validate_inr (data : Json) (x : SimpleResult) :
  SimpleResult_model_validate data = inr x ->
  conforms x
  /\ exists d v,
      data = JDict d
      /\ dict_get d "title" = Some (JStr (title x))
      /\ dict_get d "items" = Some (JList (map JStr (items x)))
      /\ dict_get d "confidence" = Some v
      /\ (forall f, number_value v = Some f -> confidence x = f).
Proof.
  unfold SimpleResult_model_validate. destruct data; try discriminate.
  destruct (required_field "title" title_field d) as [et | t] eqn:Ht;
    destruct (required_field "items" items_field d) as [ei | i] eqn:Hi;
    destruct (required_field "confidence" confidence_field d) as [ec | c] eqn:Hc;
    try discriminate.
  intros [= <-]. cbn [title items confidence]. unfold conforms.
  cbn [title items confidence].
  apply required_field_inr in Ht as (vt & Hvt & Ht).
  apply required_field_inr in Hi as (vi & Hvi & Hi).
  apply required_field_inr in Hc as (vc & Hvc & Hc).
  apply title_field_inr in Ht as (-> & Htw & Htl).
  apply items_field_inr in Hi as (-> & Hiw & Hil).
  apply confidence_field_inr in Hc as (Hf & Hge & Hle).
  split; [now repeat split|].
  exists d, vc. now repeat split.
Qed.





(** X3.  Validation is idempotent through [model_dump]: an instance that
    came out of [model_validate] dumps to data that validates to the same
    instance again. *)
Theorem X3_validate_dump_validate (data : Json) (x : SimpleResult) :
  SimpleResult_model_validate data = inr x ->
  SimpleResult_model_validate (model_dump x) = inr x.
Proof.
  intros H. apply SimpleResult_validate_inr in H as (Hx & _).
  unfold model_dump. now apply SimpleResult_validates.
Qed.

Lemma X3_validate_dump_validate_witness :
  SimpleResult_model_validate (JDict quoted_dict)
  = inr (mkSimpleResult "Example" ["a"; "b"; "c"] 0.5)
  /\ SimpleResult_model_validate
       (model_dump (mkSimpleResult "Example" ["a"; "b"; "c"] 0.5))
     = inr (mkSimpleResult "Example" ["a"; "b"; "c"] 0.5).
Proof.
  assert (H : SimpleResult_model_validate (JDict quoted_dict)
              = inr (mkSimpleResult "Example" ["a"; "b"; "c"] 0.5))
    by (vm_compute; reflexivity).
  split; [exact H|].
  exact (X3_validate_dump_validate (JDict quoted_dict) _ H).
Defined.

(* ------------------------------------------------------------------ *)
(** ** The run and its generator *)

(** X4.  The generator is used strictly in sequence and for nothing but the
    recorded calls: sending the client the prompts of the history, in order,
    gives the responses of the history and leaves the client as the run
    leaves it. *)
Theorem X4_calls_in_sequence
  (py : Interpreter) (G T : Type) (client_class : Client G) (schema : Schema T)
  (user_task : string) (client : G) (max_retries : Z) :
  let run := generate_structured schema user_task client max_retries in
  replay client (map prompt (history run))
  = (map response (history run), client_after run).
Proof.
  intros run.
  destruct (run_loop schema user_task client max_retries) as (r & v & Hloop).
  exact (for_attempt_replay schema user_task _ _ _ _ _ _ _ Hloop).
Qed.

Lemma FakeClient_replay (prompts : list string) :
  forall self : FakeClient,
    outputs (snd (replay self prompts)) = outputs self
    /\ calls (snd (replay self prompts))
       = calls self + count_text (fst (replay self prompts)).
Proof.
  unfold count_text.
  induction prompts as [|p rest IH]; intros self; cbn [replay].
  - cbn [fst snd filter List.length]. split; [reflexivity | lia].
  - change (@generate FakeClient _ self p) with (FakeClient_generate self p).
    unfold FakeClient_generate.
    destruct (py_index (outputs self) (calls self)) as [out|]; cbv beta iota.
    + specialize (IH (mkFakeClient (outputs self) (calls self + 1))).
      destruct (replay (mkFakeClient (outputs self) (calls self + 1)) rest)
        as [resps c2].
      cbn [fst snd outputs calls filter is_text List.length] in *.
      destruct IH as [-> ->]. split; [reflexivity | lia].
    + specialize (IH self).
      destruct (replay self rest) as [resps c2].
      cbn [fst snd filter is_text] in *. exact IH.
Qed.

(** X5.  With the [FakeClient] of the tests as generator, a run leaves the
    list of outputs as it was and advances [calls] by the number of calls
    that returned text: a call that raised (the outputs were used up) is not
    counted. *)
Theorem X5_FakeClient_counts_returned_calls
  (py : Interpreter) (T : Type) (schema : Schema T) (user_task : string)
  (client : FakeClient) (max_retries : Z) :
  let run := generate_structured schema user_task client max_retries in
  outputs (client_after run) = outputs client
  /\ calls (client_after run)
     = calls client + count_text (map response (history run)).
Proof.
  intros run.
  destruct (run_loop schema user_task client max_retries) as (r & v & Hloop).
  apply for_attempt_replay in Hloop. fold run in Hloop.
  pose proof (FakeClient_replay (map prompt (history run)) client) as H.
  now rewrite Hloop in H.
Qed.

Lemma Failure_reason_known {py : Interpreter} {T : Type} (schema : Schema T)
      (resp : string + string) (reason : string) :
  Failure schema resp reason -> reason <> "Unknown error".
Proof.
  intros [e | raw e Hp | raw exc Hp Hk | raw data e Hp Hv | raw data exc Hp Hv Hk];
    discriminate.
Qed.

(** X6.  What a raised [StructuredGenerationError] tells: [attempts] is
    [1 + max_retries] and the message names that number; [last_raw_output]
    is the text of the most recent generator call that returned text (of an
    earlier attempt when the last call raised), empty when none did; and
    [last_error] is ["Unknown error"] exactly when no attempt was made. *)
Theorem X6_failure_diagnostics
  (py : Interpreter) (G T : Type) (client_class : Client G) (schema : Schema T)
  (user_task : string) (client : G) (max_retries : Z)
  (e : StructuredGenerationError) :
  let run := generate_structured schema user_task client max_retries in
  outcome run = Raised e ->
  attempts e = 1 + max_retries
  /\ message e = "Failed to generate valid structured output after "
                   ++ str_of_int (attempts e) ++ " attempts"
  /\ last_raw_output e = most_recent_raw (rev (map response (history run)))
  /\ (last_error e = "Unknown error" <-> history run = []).
Proof.
  intros run Hout.
  destruct (run_raised schema user_task client max_retries e Hout)
    as (_ & _ & Hatt & Hmsg & Hraw & Hnil & Hlast).
  fold run in Hraw, Hnil, Hlast.
  split; [exact Hatt|]. split; [now rewrite Hatt|]. split; [exact Hraw|].
  split; [|exact Hnil].
  intros Hunknown.
  destruct (history run) as [|c l] eqn:Hh; [reflexivity|].
  assert (Hne : c :: l <> []) by discriminate.
  destruct (exists_last Hne) as (before & final & Heq).
  specialize (Hlast before final Heq).
  now elim (Failure_reason_known schema _ _ Hlast).
Qed.

Lemma X6_failure_diagnostics_witness :
  let run :=
    generate_structured (py := example_interpreter) SimpleResult_schema test_task
      (FakeClient_init ["{}"]) 1 in
  let e :=
    mkStructuredGenerationError
      "Failed to generate valid structured output after 2 attempts"
      "{}"
      "Client/LLM error: list index out of range"
      2 in
  outcome run = Raised e
  /\ last_raw_output e = most_recent_raw (rev (map response (history run))).
Proof.
  intros run e.
  assert (H : outcome run = Raised e) by (vm_compute; reflexivity).
  split; [exact H|].
  exact (proj1 (proj2 (proj2
           (X6_failure_diagnostics example_interpreter FakeClient SimpleResult _
              SimpleResult_schema test_task (FakeClient_init ["{}"]) 1 e H)))).
Defined.



(** X8.  A larger retry budget never changes a success: if the run with
    budget [m] returns, the run with any budget [m' >= m] is the same run
    (same result, same calls, same client afterwards).  If the run with
    budget [m] raises, the run with the larger budget starts with the same
    calls and goes on from there. *)
Theorem X8_budget_monotone
  (py : Interpreter) (G T : Type) (client_class : Client G) (schema : Schema T)
  (user_task : string) (client : G) (m m' : Z) :
  -1 <= m <= m' ->
  let run := generate_structured schema user_task client m in
  let run' := generate_structured schema user_task client m' in
  (forall obj, outcome run = Returned obj -> run' = run)
  /\ (forall e, outcome run = Raised e ->
                exists more, history run' = (history run ++ more)%list).
Proof.
  intros Hm run run'.
  assert (Hsplit : py_range 1 (1 + m' + 1)
                   = (py_range 1 (1 + m + 1) ++ py_range (1 + m + 1) (1 + m' + 1))%list)
    by (apply py_range_app; lia).
  destruct (run_cases schema user_task client m)
    as [(o & v & Hloop & Ho) | (v & Hloop & Ho)]; fold run in Hloop, Ho.
  - split; [|intros e He; rewrite Ho in He; discriminate].
    intros obj Hobj. rewrite Ho in Hobj. injection Hobj as ->.
    apply (for_attempt_app schema user_task _ (py_range (1 + m + 1) (1 + m' + 1)))
      in Hloop.
    rewrite <- Hsplit in Hloop.
    subst run'. unfold generate_structured at 1. rewrite Hloop.
    destruct run as [out ca h]. cbn [outcome client_after history] in *.
    now rewrite Ho.
  - split;
      [intros obj Hobj; rewrite Ho in Hobj; unfold exhausted in Hobj;
       destruct (py_str (1 + m)); discriminate|].
    intros e _.
    apply (for_attempt_app schema user_task _ (py_range (1 + m + 1) (1 + m' + 1)))
      in Hloop.
    rewrite <- Hsplit in Hloop.
    subst run'. unfold generate_structured at 1. rewrite Hloop.
    destruct (for_attempt schema user_task (py_range (1 + m + 1) (1 + m' + 1))
                (client_after run) v) as [[[r2 c2] v2] calls2].
    exists calls2. now destruct r2.
Qed.

Lemma X8_budget_monotone_witness :
  -1 <= 1 <= 5
  /\ generate_structured (py := example_interpreter) SimpleResult_schema
       test_task (FakeClient_init ["not json at all"; doc_ok]) 5
     = generate_structured (py := example_interpreter) SimpleResult_schema
         test_task (FakeClient_init ["not json at all"; doc_ok]) 1.
Proof.
  assert (H : -1 <= 1 <= 5) by lia.
  assert (Ho : outcome (generate_structured (py := example_interpreter)
                          SimpleResult_schema test_task
                          (FakeClient_init ["not json at all"; doc_ok]) 1)
               = Returned (mkSimpleResult "OK" ["x"; "y"; "z"]
                             0x1.999999999999ap-1))
    by (vm_compute; reflexivity).
  split; [exact H|].
  exact (proj1 (X8_budget_monotone example_interpreter FakeClient SimpleResult _
                  SimpleResult_schema test_task
                  (FakeClient_init ["not json at all"; doc_ok]) 1 5 H)
               _ Ho).
Defined.

(* ------------------------------------------------------------------ *)
(** ** The two forms of the prompt *)

Lemma append_inj_l (a x y : string) : a ++ x = a ++ y -> x = y.
Proof.
  induction a as [|c a IH]; cbn [append]; [trivial|].
  intros [= H]. exact (IH H).
Qed.

Lemma append_char_inj_r (x y : string) (c : ascii) :
  x ++ String c "" = y ++ String c "" -> x = y.
Proof.
  revert y. induction x as [|a x IH]; intros [|b y]; cbn [append]; intros H.
  - reflexivity.
  - injection H as _ H. destruct y; discriminate.
  - injection H as _ H. destruct x; discriminate.
  - injection H as -> H. f_equal. exact (IH _ H).
Qed.

(** X9.  The prompt carries its variable part in full and without change:
    from a normal prompt the task can be read back (two tasks never give
    the same prompt), and from a repair prompt the invalid output; and the
    two forms cannot be confused, a normal prompt is never equal to a repair
    prompt for the same schema. *)
Theorem X9_prompt_faithful
  (T : Type) (schema : Schema T) (task task' : string)
  (prev prev' : option string) :
  (_build_prompt task schema prev false = _build_prompt task' schema prev' false
   -> task = task')
  /\ (_build_prompt task schema prev true = _build_prompt task' schema prev' true
      -> opt_or prev "" = opt_or prev' "")
  /\ _build_prompt task schema prev false <> _build_prompt task' schema prev' true.
Proof.
  unfold _build_prompt. cbn [negb].
  split; [|split]; intros H;
    repeat (apply append_inj_l in H);
    try (now apply append_char_inj_r in H).
  discriminate.
Qed.

Lemma X9_prompt_faithful_witness :
  _build_prompt test_task SimpleResult_schema None false
  = _build_prompt test_task SimpleResult_schema (Some "x") false
  /\ test_task = test_task.
Proof.
  assert (H : _build_prompt test_task SimpleResult_schema None false
              = _build_prompt test_task SimpleResult_schema (Some "x") false)
    by reflexivity.
  split; [exact H|].
  exact (proj1 (X9_prompt_faithful SimpleResult SimpleResult_schema
                  test_task test_task None (Some "x")) H).
Defined.

(* ------------------------------------------------------------------ *)
(** ** The schema hint is JSON *)

Section HintJson.

Context {py : Interpreter}.

(** Reading back one escaped character costs one turn of [scanstring]. *)
Lemma scanstring_escape_char (begin_ acc tail : list ascii) (fuel : nat) (c : ascii) :
  scanstring_loop begin_ acc (escape_char c ++ tail)%list (S fuel)
  = scanstring_loop begin_ (c :: acc) tail fuel.
Proof.
  destruct c as [[] [] [] [] [] [] [] []]; reflexivity.
Qed.

Lemma escape_char_nonempty (c : ascii) : (1 <= List.length (escape_char c))%nat.
Proof. destruct c as [[] [] [] [] [] [] [] []]; cbn; lia. Qed.

Lemma escaped_length (l : list ascii) :
  (List.length l <= List.length (flat_map escape_char l))%nat.
Proof.
  induction l as [|c l IH]; cbn [flat_map List.length]; [lia|].
  rewrite length_app. pose proof (escape_char_nonempty c). lia.
Qed.

(** [scanstring] reads an encoded string back, up to its closing quote. *)
Lemma scanstring_escaped (begin_ tail : list ascii) (l : list ascii) :
  forall (acc : list ascii) (fuel : nat),
    (List.length l < fuel)%nat ->
    scanstring_loop begin_ acc
      (flat_map escape_char l ++ "034"%char :: tail)%list fuel
    = Got (of_chars (rev acc ++ l)%list) tail.
Proof.
  induction l as [|c l IH]; intros acc fuel Hfuel.
  - destruct fuel as [|fuel]; [cbn in Hfuel; lia|].
    cbn [flat_map app scanstring_loop]. now rewrite app_nil_r.
  - destruct fuel as [|fuel]; [cbn in Hfuel; lia|].
    cbn [flat_map]. rewrite <- app_assoc, scanstring_escape_char.
    rewrite IH by (cbn [List.length] in Hfuel; lia).
    cbn [rev]. now rewrite <- app_assoc.
Qed.

Lemma chars_encode_str (s : string) :
  chars (encode_str s)
  = ("034"%char :: flat_map escape_char (chars s) ++ ["034"%char])%list.
Proof.
  unfold encode_str, dq. rewrite !chars_app, chars_of_chars. reflexivity.
Qed.

Lemma scanstring_encode_str (begin_ tail : list ascii) (s : string) :
  scanstring begin_ (flat_map escape_char (chars s) ++ "034"%char :: tail)%list
  = Got s tail.
Proof.
  unfold scanstring. rewrite scanstring_escaped.
  - cbn [rev app]. now rewrite of_chars_chars.
  - rewrite length_app. pose proof (escaped_length (chars s)). lia.
Qed.

(** A string value, encoded, scans back to itself. *)
Lemma scan_once_encode_str (s : string) (tail : list ascii) (fuel depth : nat) :
  scan_once (S fuel) depth (chars (encode_str s) ++ tail)%list = Got (JStr s) tail.
Proof.
  rewrite chars_encode_str. cbn [app scan_once].
  rewrite <- app_assoc. cbn [app]. now rewrite scanstring_encode_str.
Qed.

Lemma skip_ws_token (l : list ascii) : token_start l -> skip_ws l = l.
Proof.
  destruct l as [|c l]; [contradiction|].
  cbn [token_start]. intros [-> | [-> | [-> | ->]]]; reflexivity.
Qed.

Lemma skip_ws_spaces (cur : string) (l : list ascii) :
  all_spaces cur -> skip_ws (chars cur ++ l)%list = skip_ws l.
Proof.
  unfold all_spaces. induction (chars cur) as [|c cs IH]; intros H; [reflexivity|].
  inversion H as [|? ? Hc Hcs]; subst. cbn [app skip_ws is_ws]. now apply IH.
Qed.

Lemma skip_ws_newline_indent (cur : string) (l : list ascii) :
  all_spaces cur -> skip_ws (chars (nl ++ cur) ++ l)%list = skip_ws l.
Proof.
  intros H. rewrite chars_app, <- app_assoc. cbn [chars nl list_ascii_of_string app].
  cbn [skip_ws is_ws]. now apply skip_ws_spaces.
Qed.

Lemma all_spaces_deeper (cur : string) : all_spaces cur -> all_spaces (cur ++ "  ").
Proof.
  unfold all_spaces. intros H. rewrite chars_app. apply Forall_app. split; [exact H|].
  repeat constructor.
Qed.

Lemma dumps_token_start (cur : string) (h : Hint) (tail : list ascii) :
  token_start (chars (dumps cur h) ++ tail)%list.
Proof.
  destruct h as [|s|[|x l]|[|kv d]]; cbn [dumps];
    try rewrite chars_encode_str; try rewrite !chars_app; cbn; tauto.
Qed.

(** A list of pairs with distinct keys is the [dict] it makes. *)
Lemma dict_set_fresh (d : PyDict) (k : string) (v : Json) :
  ~ In k (map fst d) -> dict_set d k v = (d ++ [(k, v)])%list.
Proof.
  induction d as [|[k' v'] d IH]; intros Hfresh; [reflexivity|].
  cbn [dict_set app]. cbn [map fst In] in Hfresh.
  destruct (String.eqb_spec k k') as [-> | Hne]; [tauto|].
  rewrite IH by tauto. reflexivity.
Qed.

Lemma dict_of_pairs_distinct (pairs : list (string * Json)) :
  NoDup (map fst pairs) -> dict_of_pairs pairs = pairs.
Proof.
  unfold dict_of_pairs.
  assert (H : forall d,
             NoDup (map fst (d ++ pairs)) ->
             fold_left (fun d kv => dict_set d (fst kv) (snd kv)) pairs d
             = (d ++ pairs)%list).
  { induction pairs as [|[k v] pairs IH]; intros d Hnd; cbn [fold_left fst snd].
    - now rewrite app_nil_r.
    - rewrite dict_set_fresh.
      + rewrite IH; rewrite <- app_assoc; [reflexivity | exact Hnd].
      + rewrite map_app in Hnd. cbn [map fst] in Hnd.
        apply NoDup_remove_2 in Hnd. intros Hin. apply Hnd.
        apply in_or_app. now left. }
  intros Hnd. exact (H [] Hnd).
Qed.

Lemma Hint_nested_ind (P : Hint -> Prop) :
  P HNone ->
  (forall s, P (HStr s)) ->
  (forall l, Forall P l -> P (HList l)) ->
  (forall d, Forall (fun kv => P (snd kv)) d -> P (HDict d)) ->
  forall h, P h.
Proof.
  intros HN HS HL HD.
  exact (fix rec (h : Hint) : P h :=
           match h with
           | HNone => HN
           | HStr s => HS s
           | HList l =>
               HL l ((fix all (l : list Hint) : Forall P l :=
                        match l with
                        | [] => Forall_nil P
                        | x :: r => Forall_cons x (rec x) (all r)
                        end) l)
           | HDict d =>
               HD d ((fix all (d : list (string * Hint))
                      : Forall (fun kv => P (snd kv)) d :=
                        match d with
                        | [] => Forall_nil _
                        | kv :: r => Forall_cons kv (rec (snd kv)) (all r)
                        end) d)
           end).
Qed.

Lemma dumps_list (cur : string) (x : Hint) (l : list Hint) :
  dumps cur (HList (x :: l))
  = "[" ++ nl ++ (cur ++ "  ")
        ++ join ("," ++ nl ++ (cur ++ "  ")) (map (dumps (cur ++ "  ")) (x :: l))
        ++ nl ++ cur ++ "]".
Proof. reflexivity. Qed.

Lemma dumps_dict (cur : string) (kv : string * Hint) (d : list (string * Hint)) :
  dumps cur (HDict (kv :: d))
  = "{" ++ nl ++ (cur ++ "  ")
        ++ join ("," ++ nl ++ (cur ++ "  ")) (map (dumps_entry (cur ++ "  ")) (kv :: d))
        ++ nl ++ cur ++ "}".
Proof. reflexivity. Qed.

Lemma scan_once_bracket (fuel depth : nat) (r : list ascii) :
  scan_once (S fuel) (S depth) ("["%char :: r)
  = match skip_ws r with
    | "]"%char :: r2 => Got (JList []) r2
    | r1 => JSONArray fuel depth [] r1
    end.
Proof.
  cbn [scan_once]. destruct (skip_ws r) as [|c r1]; [reflexivity|].
  destruct c as [[] [] [] [] [] [] [] []]; reflexivity.
Qed.

Lemma scan_once_brace (fuel depth : nat) (r : list ascii) :
  scan_once (S fuel) (S depth) ("{"%char :: r)
  = match skip_ws r with
    | "}"%char :: r2 => Got (JDict []) r2
    | "034"%char :: r2 => JSONObject fuel depth [] ("034"%char :: r2)
    | r1 => Bad "Expecting property name enclosed in double quotes" r1
    end.
Proof.
  cbn [scan_once]. destruct (skip_ws r) as [|c r1]; [reflexivity|].
  destruct c as [[] [] [] [] [] [] [] []]; reflexivity.
Qed.

Lemma JSONArray_turn (fuel depth : nat) (acc : list Json) (s : list ascii) :
  JSONArray (S fuel) depth acc s
  = match scan_once fuel depth s with
    | Got v rest =>
        match skip_ws rest with
        | "]"%char :: r => Got (JList (rev (v :: acc))) r
        | ","%char :: r => JSONArray fuel depth (v :: acc) (skip_ws r)
        | rest1 => Bad "Expecting ',' delimiter" rest1
        end
    | Stop a => Bad "Expecting value" a
    | Bad m a => Bad m a
    | Raise e => Raise e
    end.
Proof.
  cbn [JSONArray].
  destruct (scan_once fuel depth s) as [v rest | a | m a | e]; try reflexivity.
  destruct (skip_ws rest) as [|c r]; [reflexivity|].
  destruct c as [[] [] [] [] [] [] [] []]; reflexivity.
Qed.

Lemma JSONObject_turn (fuel depth : nat) (acc : list (string * Json))
      (r : list ascii) :
  JSONObject (S fuel) depth acc ("034"%char :: r)
  = match scanstring ("034"%char :: r) r with
    | Got key rest =>
        match skip_ws rest with
        | ":"%char :: r2 =>
            match scan_once fuel depth (skip_ws r2) with
            | Got v rest2 =>
                match skip_ws rest2 with
                | "}"%char :: r4 =>
                    Got (JDict (dict_of_pairs (rev ((key, v) :: acc)))) r4
                | ","%char :: r4 =>
                    match skip_ws r4 with
                    | "034"%char :: r6 =>
                        JSONObject fuel depth ((key, v) :: acc) ("034"%char :: r6)
                    | r5 => Bad "Expecting property name enclosed in double quotes" r5
                    end
                | rest3 => Bad "Expecting ',' delimiter" rest3
                end
            | Stop a => Bad "Expecting value" a
            | Bad m a => Bad m a
            | Raise e => Raise e
            end
        | rest1 => Bad "Expecting ':' delimiter" rest1
        end
    | Stop a => Stop a
    | Bad m a => Bad m a
    | Raise e => Raise e
    end.
Proof.
  cbn [JSONObject].
  destruct (scanstring ("034"%char :: r) r) as [key rest | a | m a | e];
    try reflexivity.
  destruct (skip_ws rest) as [|c r2]; [reflexivity|].
  destruct c as [[] [] [] [] [] [] [] []]; try reflexivity.
  destruct (scan_once fuel depth (skip_ws r2)) as [v rest2 | a | m a | e];
    try reflexivity.
  destruct (skip_ws rest2) as [|c r4]; [reflexivity|].
  destruct c as [[] [] [] [] [] [] [] []]; try reflexivity.
  destruct (skip_ws r4) as [|c r6]; [reflexivity|].
  destruct c as [[] [] [] [] [] [] [] []]; reflexivity.
Qed.

Lemma join_cons2 (sep a b : string) (r : list string) :
  join sep (a :: b :: r) = a ++ sep ++ join sep (b :: r).
Proof. reflexivity. Qed.

Lemma join_token_start (sep inner : string) (x : Hint) (r : list Hint)
      (tail : list ascii) :
  token_start (chars (join sep (map (dumps inner) (x :: r))) ++ tail)%list.
Proof.
  destruct r as [|y r]; cbn [map].
  - apply dumps_token_start.
  - rewrite join_cons2, chars_app, <- app_assoc. apply dumps_token_start.
Qed.

Lemma length_chars_app (a b : string) :
  List.length (chars (a ++ b)) = (List.length (chars a) + List.length (chars b))%nat.
Proof. now rewrite chars_app, length_app. Qed.

(** The elements of a dumped list, up to the closing bracket. *)
Lemma JSONArray_scans (inner cur : string) (tail : list ascii) (items : list Hint) :
  all_spaces inner -> all_spaces cur ->
  forall (x : Hint) (acc : list Json) (fuel depth : nat),
    Forall scans_back (x :: items) ->
    fold_right (fun y rest => distinct_keys y /\ rest) True (x :: items) ->
    Forall (fun y => (hint_depth y <= depth)%nat) (x :: items) ->
    (List.length (chars (join ("," ++ nl ++ inner) (map (dumps inner) (x :: items))))
     < fuel)%nat ->
    JSONArray fuel depth acc
      (chars (join ("," ++ nl ++ inner) (map (dumps inner) (x :: items)))
         ++ chars (nl ++ cur) ++ "]"%char :: tail)%list
    = Got (JList (rev acc ++ map hint_to_json (x :: items))%list) tail.
Proof.
  intros Hinner Hcur.
  induction items as [|y items IH]; intros x acc fuel depth Hall Hkeys Hdeep Hfuel;
    (destruct fuel as [|fuel]; [lia|]);
    inversion Hall as [|? ? Hx Hrest]; subst;
    inversion Hdeep as [|? ? Hdx Hdrest]; subst;
    destruct Hkeys as [Hkx Hkrest];
    rewrite JSONArray_turn.
  - cbn [map join] in *.
    rewrite (Hx Hkx inner _ fuel depth Hinner) by lia.
    rewrite skip_ws_newline_indent by exact Hcur.
    cbn [skip_ws is_ws rev]. reflexivity.
  - cbn [map] in *. rewrite join_cons2 in *.
    rewrite !length_chars_app in Hfuel.
    rewrite !chars_app, <- !app_assoc.
    rewrite (Hx Hkx inner _ fuel depth Hinner) by lia.
    change (chars "," ++ chars nl ++ chars inner
              ++ chars (join ("," ++ nl ++ inner)
                          (dumps inner y :: map (dumps inner) items))
              ++ chars nl ++ chars cur ++ "]"%char :: tail)%list
      with (","%char :: (chars nl ++ chars inner
              ++ chars (join ("," ++ nl ++ inner)
                          (map (dumps inner) (y :: items)))
              ++ chars nl ++ chars cur ++ "]"%char :: tail))%list.
    cbn [skip_ws is_ws].
    change (chars nl ++ chars inner
              ++ chars (join ("," ++ nl ++ inner) (map (dumps inner) (y :: items)))
              ++ chars nl ++ chars cur ++ "]"%char :: tail)%list
      with (chars nl ++ (chars inner
              ++ chars (join ("," ++ nl ++ inner) (map (dumps inner) (y :: items)))
              ++ chars nl ++ chars cur ++ "]"%char :: tail))%list.
    change (chars nl) with ["010"%char]. cbn [app skip_ws is_ws].
    rewrite skip_ws_spaces by exact Hinner.
    rewrite skip_ws_token by apply join_token_start.
    replace (chars nl ++ chars cur ++ "]"%char :: tail)%list
      with (chars (nl ++ cur) ++ "]"%char :: tail)%list
      by (now rewrite chars_app, <- app_assoc).
    change (List.length (chars ",")) with 1%nat in Hfuel.
    cbn [map]. rewrite IH; [| exact Hrest | exact Hkrest | exact Hdrest | lia].
    cbn [rev map]. now rewrite <- app_assoc.
Qed.

Lemma entry_chars (inner : string) (kv : string * Hint) (l : list ascii) :
  (chars (dumps_entry inner kv) ++ l)%list
  = ("034"%char
       :: flat_map escape_char (chars (fst kv))
       ++ "034"%char :: ":"%char :: " "%char :: chars (dumps inner (snd kv)) ++ l)%list.
Proof.
  unfold dumps_entry. rewrite !chars_app, chars_encode_str.
  cbn [app]. rewrite <- !app_assoc. reflexivity.
Qed.

Lemma join_entry_head (sep inner : string) (kv : string * Hint)
      (d : list (string * Hint)) (l : list ascii) :
  exists r,
    (chars (join sep (map (dumps_entry inner) (kv :: d))) ++ l)%list
    = "034"%char :: r.
Proof.
  destruct d as [|kv2 d]; cbn [map].
  - cbn [join]. rewrite entry_chars. eexists; reflexivity.
  - rewrite join_cons2, chars_app, <- app_assoc, entry_chars. eexists; reflexivity.
Qed.

(** The entries of a dumped [dict], up to the closing brace. *)
Lemma JSONObject_scans (inner cur : string) (tail : list ascii)
      (d : list (string * Hint)) :
  all_spaces inner -> all_spaces cur ->
  forall (kv : string * Hint) (acc : list (string * Json)) (fuel depth : nat),
    Forall (fun e => scans_back (snd e)) (kv :: d) ->
    fold_right (fun e rest => distinct_keys (snd e) /\ rest) True (kv :: d) ->
    Forall (fun e => (hint_depth (snd e) <= depth)%nat) (kv :: d) ->
    (List.length
       (chars (join ("," ++ nl ++ inner) (map (dumps_entry inner) (kv :: d))))
     < fuel)%nat ->
    JSONObject fuel depth acc
      (chars (join ("," ++ nl ++ inner) (map (dumps_entry inner) (kv :: d)))
         ++ chars (nl ++ cur) ++ "}"%char :: tail)%list
    = Got (JDict
             (dict_of_pairs
                (rev acc
                   ++ map (fun e => (fst e, hint_to_json (snd e))) (kv :: d))%list))
          tail.
Proof.
  intros Hinner Hcur.
  induction d as [|kv2 d IH]; intros kv acc fuel depth Hall Hkeys Hdeep Hfuel;
    (destruct fuel as [|fuel]; [lia|]);
    inversion Hall as [|? ? Hv Hrest]; subst;
    inversion Hdeep as [|? ? Hdv Hdrest]; subst;
    destruct Hkeys as [Hkv Hkrest].
  - cbn [map join] in *.
    unfold dumps_entry in Hfuel. rewrite !length_chars_app in Hfuel.
    rewrite entry_chars, JSONObject_turn, scanstring_encode_str.
    cbn [skip_ws is_ws].
    rewrite skip_ws_token by apply dumps_token_start.
    rewrite (Hv Hkv inner _ fuel depth Hinner) by lia.
    rewrite skip_ws_newline_indent by exact Hcur.
    cbn [skip_ws is_ws rev]. reflexivity.
  - cbn [map] in Hfuel |- *. rewrite join_cons2 in *.
    unfold dumps_entry in Hfuel at 1. rewrite !length_chars_app in Hfuel.
    change (List.length (chars ",")) with 1%nat in Hfuel.
    rewrite chars_app, <- app_assoc.
    rewrite entry_chars, JSONObject_turn, scanstring_encode_str.
    cbn [skip_ws is_ws].
    rewrite skip_ws_token by apply dumps_token_start.
    rewrite (Hv Hkv inner _ fuel depth Hinner) by lia.
    rewrite !chars_app, <- !app_assoc.
    change (chars "," ++ chars nl ++ chars inner
              ++ chars (join ("," ++ nl ++ inner)
                          (dumps_entry inner kv2 :: map (dumps_entry inner) d))
              ++ chars nl ++ chars cur ++ "}"%char :: tail)%list
      with (","%char :: "010"%char :: (chars inner
              ++ chars (join ("," ++ nl ++ inner)
                          (map (dumps_entry inner) (kv2 :: d)))
              ++ chars nl ++ chars cur ++ "}"%char :: tail))%list.
    cbn [skip_ws is_ws].
    rewrite skip_ws_spaces by exact Hinner.
    replace (chars nl ++ chars cur ++ "}"%char :: tail)%list
      with (chars (nl ++ cur) ++ "}"%char :: tail)%list
      by (now rewrite chars_app, <- app_assoc).
    destruct (join_entry_head ("," ++ nl ++ inner) inner kv2 d
                (chars (nl ++ cur) ++ "}"%char :: tail)) as (r6 & Hr6).
    rewrite Hr6. cbn [skip_ws is_ws]. rewrite <- Hr6.
    rewrite IH; [| exact Hrest | exact Hkrest | exact Hdrest | cbn [map]; lia].
    cbn [rev map]. now rewrite <- app_assoc.
Qed.

Lemma length_encode_str (s : string) : (2 <= List.length (chars (encode_str s)))%nat.
Proof.
  rewrite chars_encode_str. cbn [List.length]. rewrite length_app. cbn [List.length]. lia.
Qed.

Lemma max_depth_Forall {A : Type} (f : A -> nat) (l : list A) (n : nat) :
  (fold_right (fun x acc => Nat.max (f x) acc) 0 l <= n)%nat ->
  Forall (fun x => (f x <= n)%nat) l.
Proof.
  induction l as [|x l IH]; cbn [fold_right]; intros H; constructor.
  - lia.
  - apply IH. lia.
Qed.

(** Every hint with distinct keys scans back. *)
Lemma hint_scans_back (h : Hint) : scans_back h.
Proof.
  induction h as [|s|l IH|d IH] using Hint_nested_ind;
    intros Hkeys cur tail fuel depth Hcur Hfuel Hdeep.
  - destruct fuel as [|fuel]; [cbn in Hfuel; lia|]. reflexivity.
  - pose proof (length_encode_str s) as Hlen. cbn [dumps] in *.
    destruct fuel as [|fuel]; [lia|]. apply scan_once_encode_str.
  - cbn [hint_depth] in Hdeep. destruct depth as [|depth]; [lia|].
    apply le_S_n, max_depth_Forall in Hdeep.
    destruct l as [|x l].
    + destruct fuel as [|fuel]; [cbn in Hfuel; lia|]. reflexivity.
    + rewrite dumps_list in *.
      assert (Hinner : all_spaces (cur ++ "  ")) by now apply all_spaces_deeper.
      remember (cur ++ "  ") as inner eqn:Einner. clear Einner.
      rewrite !length_chars_app in Hfuel.
      change (List.length (chars "[")) with 1%nat in Hfuel.
      change (List.length (chars "]")) with 1%nat in Hfuel.
      change (List.length (chars nl)) with 1%nat in Hfuel.
      destruct fuel as [|fuel]; [lia|].
      rewrite !chars_app, <- !app_assoc.
      change (chars "[" ++ chars nl ++ ?rest)%list
        with ("["%char :: "010"%char :: rest)%list.
      rewrite scan_once_bracket. cbn [skip_ws is_ws].
      rewrite skip_ws_spaces by exact Hinner.
      replace (chars nl ++ chars cur ++ chars "]" ++ tail)%list
        with (chars (nl ++ cur) ++ "]"%char :: tail)%list
        by (now rewrite chars_app, <- app_assoc).
      rewrite skip_ws_token by apply join_token_start.
      pose proof (join_token_start ("," ++ nl ++ inner) inner x l
                    (chars (nl ++ cur) ++ "]"%char :: tail)) as Htok.
      pose proof (JSONArray_scans inner cur tail l Hinner Hcur x [] fuel depth
                    IH Hkeys Hdeep) as Harr.
      destruct (chars (join ("," ++ nl ++ inner) (map (dumps inner) (x :: l)))
                  ++ chars (nl ++ cur) ++ "]"%char :: tail)%list as [|c r];
        [contradiction|].
      cbn [token_start] in Htok.
      destruct Htok as [-> | [-> | [-> | ->]]]; apply Harr; lia.
  - cbn [hint_depth] in Hdeep. destruct depth as [|depth]; [lia|].
    apply le_S_n, (max_depth_Forall (fun kv => hint_depth (snd kv))) in Hdeep.
    destruct d as [|kv d].
    + destruct fuel as [|fuel]; [cbn in Hfuel; lia|]. reflexivity.
    + rewrite dumps_dict in *.
      assert (Hinner : all_spaces (cur ++ "  ")) by now apply all_spaces_deeper.
      remember (cur ++ "  ") as inner eqn:Einner. clear Einner.
      rewrite !length_chars_app in Hfuel.
      change (List.length (chars "{")) with 1%nat in Hfuel.
      change (List.length (chars "}")) with 1%nat in Hfuel.
      change (List.length (chars nl)) with 1%nat in Hfuel.
      destruct fuel as [|fuel]; [lia|].
      destruct Hkeys as [Hnodup Hkeys].
      rewrite !chars_app, <- !app_assoc.
      change (chars "{" ++ chars nl ++ ?rest)%list
        with ("{"%char :: "010"%char :: rest)%list.
      rewrite scan_once_brace. cbn [skip_ws is_ws].
      rewrite skip_ws_spaces by exact Hinner.
      replace (chars nl ++ chars cur ++ chars "}" ++ tail)%list
        with (chars (nl ++ cur) ++ "}"%char :: tail)%list
        by (now rewrite chars_app, <- app_assoc).
      pose proof (JSONObject_scans inner cur tail d Hinner Hcur kv [] fuel depth
                    IH Hkeys Hdeep) as Hobj.
      destruct (join_entry_head ("," ++ nl ++ inner) inner kv d
                  (chars (nl ++ cur) ++ "}"%char :: tail)) as (r & Hr).
      rewrite Hr in *. cbn [skip_ws is_ws].
      rewrite Hobj by lia. cbn [rev app hint_to_json].
      rewrite dict_of_pairs_distinct; [reflexivity|].
      rewrite map_map. exact Hnodup.
Qed.

(** [json.loads] reads back what [json.dumps] wrote, in an interpreter
    with room for its depth. *)
Lemma json_loads_dumps (h : Hint) :
  distinct_keys h -> (hint_depth h <= recursion_room)%nat ->
  json_loads (json_dumps_indent2 h) = inr (hint_to_json h).
Proof.
  intros Hkeys Hdeep. unfold json_loads, json_dumps_indent2.
  pose proof (dumps_token_start "" h []) as Htok.
  pose proof (hint_scans_back h Hkeys "" []
                (2 * List.length (chars (dumps "" h)) + 2)%nat recursion_room
                (Forall_nil _)) as Hscan.
  rewrite app_nil_r in Htok, Hscan.
  rewrite (skip_ws_token _ Htok), Hscan by lia.
  destruct (chars (dumps "" h)) as [|c r]; [contradiction|].
  cbn [token_start] in Htok.
  destruct Htok as [-> | [-> | [-> | ->]]]; reflexivity.
Qed.

End HintJson.

Lemma required_to_json (names : list string) :
  map hint_to_json (map HStr names) = map JStr names.
Proof. induction names as [|n names IH]; cbn [map hint_to_json]; congruence. Qed.

Lemma properties_to_json (props : list (string * Property)) :
  map (fun kv => (fst kv, hint_to_json (snd kv)))
      (map (fun kv =>
              (fst kv,
               HDict [("type", opt_hint (prop_type (snd kv)));
                      ("description", opt_hint (prop_description (snd kv)))]))
           props)
  = map (fun kv =>
           (fst kv,
            JDict [("type", opt_json (prop_type (snd kv)));
                   ("description", opt_json (prop_description (snd kv)))]))
        props.
Proof.
  induction props as [|[k [ty de]] props IH]; [reflexivity|].
  cbn [map fst snd hint_to_json prop_type prop_description]. rewrite IH.
  now destruct ty, de.
Qed.

(** The hint of a schema is three levels deep at most. *)
Lemma hint_data_depth {T : Type} (schema : Schema T) :
  (hint_depth (hint_data schema) <= 3)%nat.
Proof.
  unfold hint_data. cbn [hint_depth fold_right snd].
  assert (Hreq : forall names,
             fold_right (fun x acc => Nat.max (hint_depth x) acc) 0%nat
               (map HStr names) = 0%nat).
  { induction names as [|n names IH]; cbn [map fold_right hint_depth];
      [reflexivity | now rewrite IH]. }
  assert (Hprops : forall props : list (string * Property),
             (fold_right (fun kv acc => Nat.max (hint_depth (snd kv)) acc) 0
                (map (fun kv =>
                        (fst kv,
                         HDict [("type", opt_hint (prop_type (snd kv)));
                                ("description",
                                 opt_hint (prop_description (snd kv)))]))
                     props) <= 1)%nat).
  { induction props as [|[k [ty de]] props IH];
      cbn [map fold_right hint_depth snd prop_type prop_description]; [lia|].
    destruct ty, de; cbn [opt_hint hint_depth]; lia. }
  rewrite Hreq. specialize (Hprops (properties (model_json_schema schema))). lia.
Qed.

(** X10.  The schema hint is well-formed JSON: for a schema whose property
    names are distinct, and in an interpreter with room for the three
    levels of the hint, [json.loads] reads the text [_schema_hint] makes
    back as an object with the three keys [type], [required_keys] and
    [properties]; the second lists the required names in order, and the
    third gives, for each property in order, its type and its description
    ([null] where the schema has none), whatever characters the names and
    descriptions contain. *)
Theorem X10_schema_hint_is_json
  (py : Interpreter) (T : Type) (schema : Schema T) :
  NoDup (map fst (properties (model_json_schema schema))) ->
  (3 <= recursion_room)%nat ->
  json_loads (_schema_hint schema)
  = inr (JDict
           [("type", JStr "object");
            ("required_keys",
             JList (map JStr (required (model_json_schema schema))));
            ("properties",
             JDict (map (fun kv =>
                           (fst kv,
                            JDict [("type", opt_json (prop_type (snd kv)));
                                   ("description",
                                    opt_json (prop_description (snd kv)))]))
                        (properties (model_json_schema schema))))]).
Proof.
  intros Hnodup Hroom.
  change (_schema_hint schema) with (json_dumps_indent2 (hint_data schema)).
  rewrite json_loads_dumps.
  - unfold hint_data. cbn [hint_to_json map fst snd].
    now rewrite required_to_json, properties_to_json.
  - unfold hint_data. cbn [distinct_keys map fst snd fold_right].
    repeat split.
    + repeat constructor; cbn [In]; intuition discriminate.
    + induction (required (model_json_schema schema)); cbn; tauto.
    + rewrite map_map. exact Hnodup.
    + induction (properties (model_json_schema schema)) as [|[k [ty de]] ps IHps];
        cbn [map fold_right fst snd distinct_keys]; [exact I|].
      inversion Hnodup; subst.
      repeat split; try (now destruct ty); try (now destruct de); try tauto.
      repeat constructor; cbn [In]; intuition discriminate.
  - pose proof (hint_data_depth schema). lia.
Qed.

Lemma X10_schema_hint_is_json_witness :
  NoDup (map fst (properties (model_json_schema SimpleResult_schema)))
  /\ (3 <= recursion_room (Interpreter := example_interpreter))%nat
  /\ exists data,
      json_loads (py := example_interpreter) (_schema_hint SimpleResult_schema)
      = inr data.
Proof.
  assert (H : NoDup (map fst (properties (model_json_schema SimpleResult_schema)))).
  { cbn. repeat constructor; cbn [In]; intuition discriminate. }
  assert (Hroom : (3 <= recursion_room (Interpreter := example_interpreter))%nat)
    by (cbn; lia).
  split; [exact H|]. split; [exact Hroom|].
  eexists.
  exact (X10_schema_hint_is_json example_interpreter SimpleResult
           SimpleResult_schema H Hroom).
Defined.
